(** * Shop analytics: a shallow embedding of [streamlit.py]

    The development follows the analytics functions of the shop manager:
    [get_products] (stock classifier), [get_sales] (sale aggregator),
    [get_weekly_sales] (weekly rollup) and [get_insights] (trend, revenue
    contribution and restock recommendations).

    Modelling conventions.
    - The SQLite tables are lists of records; [INTEGER] columns are [Z],
      [TEXT] columns are [string], the [REAL] price is a rational [Q].
    - A pandas DataFrame is the list of its rows, in row order; each frame
      has its own record type, with the column names of the source.
    - float64 columns are modelled with exact rational arithmetic on finite
      values.  The values that IEEE-754 division adds (NaN, +inf, -inf) are
      kept explicitly in [npfloat], with the comparison rules of NaN.
    - The [Quantity Sold] column is int64: its group sums wrap around
      ([sum_int64]).  A sales frame without rows has object columns: the
      division of [get_insights] then works on Python integers and raises
      [ZeroDivisionError] instead of giving an infinity or NaN.
    - The [sale_date] column holds the text written by
      [strftime('%Y-%m-%d %H:%M:%S')]; the frames carry the timestamp that
      [pd.to_datetime] reads back from it.
    - [datetime.now()] is an explicit argument.  *)

From Stdlib Require Import ZArith QArith List String Ascii Bool Lia.
From Stdlib Require Import Sorted Permutation.
Import ListNotations.

Local Open Scope string_scope.
Local Open Scope Z_scope.

(** ** Calendar arithmetic *)

Module Calendar.

Record datetime : Set := mkDatetime
  { year : Z; month : Z; day : Z;
    hour : Z; minute : Z; second : Z; microsecond : Z }.

Definition is_leap (y : Z) : bool :=
  (y mod 4 =? 0) && (negb (y mod 100 =? 0) || (y mod 400 =? 0)).

(** Number of days before January 1st of year [y] (proleptic Gregorian
    ordinal, day 1 is 0001-01-01). *)
Definition days_before_year (y : Z) : Z :=
  let y' := y - 1 in
  y' * 365 + y' / 4 - y' / 100 + y' / 400.

Definition DAYS_BEFORE_MONTH : list Z :=
  [-1; 0; 31; 59; 90; 120; 151; 181; 212; 243; 273; 304; 334].

Definition days_before_month (y m : Z) : Z :=
  nth (Z.to_nat m) DAYS_BEFORE_MONTH 0
  + (if (2 <? m) && is_leap y then 1 else 0).

Definition ymd2ord (y m d : Z) : Z :=
  days_before_year y + days_before_month y m + d.

Definition toordinal (t : datetime) : Z :=
  ymd2ord (year t) (month t) (day t).

(** Ordinal of the Monday that starts ISO week 1 of year [y]: the week
    that contains the first Thursday of the year. *)
Definition isoweek1monday (y : Z) : Z :=
  let THURSDAY := 3 in
  let firstday := ymd2ord y 1 1 in
  let firstweekday := (firstday + 6) mod 7 in
  let week1monday := firstday - firstweekday in
  if THURSDAY <? firstweekday then week1monday + 7 else week1monday.

(** ISO-8601 calendar of a date: (ISO year, ISO week, ISO weekday), by
    the rule of [date.isocalendar]: count weeks from the Monday of week 1,
    and move to the neighbouring year at either end. *)
Definition isocalendar (t : datetime) : Z * Z * Z :=
  let y := year t in
  let week1monday := isoweek1monday y in
  let today := toordinal t in
  let week := (today - week1monday) / 7 in
  let wd := (today - week1monday) mod 7 in
  if week <? 0 then
    let y' := y - 1 in
    let week1monday' := isoweek1monday y' in
    (y', (today - week1monday') / 7 + 1, (today - week1monday') mod 7 + 1)
  else if (52 <=? week) && (isoweek1monday (y + 1) <=? today) then
    (y + 1, 1, wd + 1)
  else
    (y, week + 1, wd + 1).

Definition iso_year (t : datetime) : Z := fst (fst (isocalendar t)).
Definition iso_week (t : datetime) : Z := snd (fst (isocalendar t)).
Definition iso_weekday (t : datetime) : Z := snd (isocalendar t).

(** The same calendar by the day-of-year route that pandas takes
    ([dayofweek] by Sakamoto's table, then a week estimate that is
    corrected at the ends of the year). *)
Definition sakamoto_arr : list Z := [0; 3; 2; 5; 0; 3; 5; 1; 4; 6; 2; 4].

Definition dayofweek (y m d : Z) : Z :=
  let y := if m <? 3 then y - 1 else y in
  let dd := (y + y / 4 - y / 100 + y / 400
             + nth (Z.to_nat (m - 1)) sakamoto_arr 0 + d) mod 7 in
  (dd + 6) mod 7.

Definition get_day_of_year (y m d : Z) : Z := days_before_month y m + d.

Definition get_iso_calendar (y m d : Z) : Z * Z * Z :=
  let doy := get_day_of_year y m d in
  let dow := dayofweek y m d in
  let est := (doy - 1) - dow + 3 in
  let wk :=
    if est <? 0 then
      if (-2 <? est) || ((est =? -2) && is_leap (y - 1)) then 53 else 52
    else
      let w := est / 7 + 1 in
      if (w =? 53) && (31 - d + dow <? 3) then 1 else w in
  let iy :=
    if (wk =? 1) && (m =? 12) then y + 1
    else if (52 <=? wk) && (m =? 1) then y - 1
    else y in
  (iy, wk, dow + 1).

(** Position of a timestamp on the time line, in microseconds. *)
Definition to_microseconds (t : datetime) : Z :=
  (((toordinal t * 24 + hour t) * 60 + minute t) * 60 + second t) * 1000000
  + microsecond t.

(** [timedelta(days=n)] in microseconds. *)
Definition timedelta_days (n : Z) : Z := n * 86400 * 1000000.

Definition datetime_leb (a b : datetime) : bool :=
  to_microseconds a <=? to_microseconds b.

(** Zero-padded decimal fields of [strftime]. *)
Definition digit (n : Z) : ascii := ascii_of_nat (48 + Z.to_nat (n mod 10)).

Definition pad2 (n : Z) : string :=
  String (digit (n / 10)) (String (digit n) EmptyString).

Definition pad4 (n : Z) : string :=
  String (digit (n / 1000)) (String (digit (n / 100)) (pad2 n)).

(** [strftime('%Y-%m-%d')]. *)
Definition strftime_ymd (t : datetime) : string :=
  String.append (pad4 (year t))
    (String.append "-" (String.append (pad2 (month t))
       (String.append "-" (pad2 (day t))))).

Definition days_in_month (y m : Z) : Z :=
  if (m =? 2) && is_leap y then 29
  else nth (Z.to_nat m) [-1; 31; 28; 31; 30; 31; 30; 31; 31; 30; 31; 30; 31] 0.

(** All dates of year [y], for exhaustive checks. *)
Definition dates_of_year (y : Z) : list datetime :=
  flat_map (fun m =>
    map (fun d => mkDatetime y m (Z.of_nat d) 0 0 0 0)
        (seq 1 (Z.to_nat (days_in_month y m))))
    (map Z.of_nat (seq 1 12)).

Definition same_calendar (t : datetime) : bool :=
  let '(y1, w1, d1) := isocalendar t in
  let '(y2, w2, d2) := get_iso_calendar (year t) (month t) (day t) in
  (y1 =? y2) && (w1 =? w2) && (d1 =? d2).

End Calendar.
Import Calendar.


(** ** float64 values

    Finite values are exact rationals; [nan] and [inf] are the results
    that IEEE-754 division gives for a zero divisor.  The zero divisors of
    this program are all [+0.0], so zero carries no sign here. *)

Inductive npfloat : Set :=
| nan
| inf (negative : bool)
| fin (q : Q).

Definition Qltb (a b : Q) : bool := negb (Qle_bool b a).

(** [a / b] on float64: no exception, a zero divisor gives [nan] or an
    infinity with the sign of the dividend. *)
Definition np_truediv (a b : Q) : npfloat :=
  if Qeq_bool b 0 then
    if Qeq_bool a 0 then nan else inf (Qltb a 0)
  else fin (a / b).

(** [x * c] for a finite constant [c]. *)
Definition np_mul (x : npfloat) (c : Q) : npfloat :=
  match x with
  | nan => nan
  | inf s => if Qeq_bool c 0 then nan else inf (xorb s (Qltb c 0))
  | fin q => fin (q * c)
  end.

(** [x < c] and [x > c]: every comparison with NaN is false. *)
Definition np_lt (x : npfloat) (c : Q) : bool :=
  match x with
  | nan => false
  | inf s => s
  | fin q => Qltb q c
  end.

Definition np_gt (x : npfloat) (c : Q) : bool :=
  match x with
  | nan => false
  | inf s => negb s
  | fin q => Qltb c q
  end.

Definition sum_Z (l : list Z) : Z := fold_right Z.add 0 l.
Definition sum_Q (l : list Q) : Q := fold_right Qplus 0%Q l.

(** ** int64 values

    A sum of an int64 column is accumulated in int64 and wraps around in
    two's complement. *)

Definition wrap64 (x : Z) : Z :=
  (x + 9223372036854775808) mod 18446744073709551616 - 9223372036854775808.

Definition sum_int64 (l : list Z) : Z :=
  fold_left (fun acc x => wrap64 (acc + x)) l 0.

(** ** Exceptions

    A function that may end in [ZeroDivisionError]. *)

Inductive raised (A : Type) : Type :=
| Returned (a : A)
| ZeroDivisionError.

Arguments Returned {A} a.
Arguments ZeroDivisionError {A}.

Definition raised_map {A B : Type} (f : A -> B) (r : raised A) : raised B :=
  match r with
  | Returned a => Returned (f a)
  | ZeroDivisionError => ZeroDivisionError
  end.

(** ** The database *)

Module Products.
Record t : Set := mk
  { id : string; name : string; price : Q; quantity : Z }.
End Products.

Module Sales.
Record t : Set := mk
  { id : string; product_id : string; quantity_sold : Z;
    sale_date : datetime }.
End Sales.

(** The connection [conn]: the two tables of [shop.db]. *)
Record conn : Set := mkConn
  { products : list Products.t; sales : list Sales.t }.

(** Functions that go through the shared connection thread it. *)
Definition DB (A : Type) : Type := conn -> A * conn.

Definition ret {A : Type} (a : A) : DB A := fun c => (a, c).

Definition bind {A B : Type} (m : DB A) (k : A -> DB B) : DB B :=
  fun c => let (a, c') := m c in k a c'.

Notation "x <- m ;; k" := (bind m (fun x => k))
  (at level 61, m at next level, right associativity).

Definition run {A : Type} (m : DB A) (c : conn) : A := fst (m c).

(** [SELECT * FROM products] followed by [fetchall]. *)
Definition select_products : DB (list Products.t) :=
  fun c => (products c, c).

(** [SELECT ... FROM sales s JOIN products p ON s.product_id = p.id]
    followed by [fetchall]: one tuple for each pair of a sale and a product
    with that identifier, sales in table order. *)
Definition select_sales_join_products : DB (list (Sales.t * Products.t)) :=
  fun c =>
    (flat_map (fun s =>
       map (fun p => (s, p))
           (filter (fun p => String.eqb (Sales.product_id s) (Products.id p))
                   (products c)))
       (sales c), c).

(** ** Frames *)

Module ProductsFrame.
Record row : Set := mk
  { ID : string; Name : string; Price : Q; Quantity : Z;
    Stock_Status : string }.
End ProductsFrame.

Module SalesFrame.
Record row : Set := mk
  { Sale_ID : string; Name : string; Quantity_Sold : Z;
    Sale_Date : datetime; Price : Q; Revenue : Q }.
End SalesFrame.

Module WeeklyFrame.
Record row : Set := mk
  { Year : Z; Week : Z; Quantity_Sold : Z; Revenue : Q;
    Week_Start : option string }.
End WeeklyFrame.

Module TrendFrame.
Record row : Set := mk
  { weekly : WeeklyFrame.row; Trend : string }.
End TrendFrame.

Module RestockFrame.
Record row : Set := mk
  { product : ProductsFrame.row; Quantity_Sold : Q;
    Days_to_Depletion : npfloat; Restock_Urgency : string }.
End RestockFrame.

(** ** Stock classifier: [get_products] *)

Definition stock_status (x : Z) : string :=
  if x =? 0 then "Out of Stock"
  else if x <? 5 then "Low Stock"
  else "In Stock".

Definition get_products : DB (list ProductsFrame.row) :=
  rows <- select_products ;;
  ret (map (fun p =>
         ProductsFrame.mk (Products.id p) (Products.name p)
           (Products.price p) (Products.quantity p)
           (stock_status (Products.quantity p))) rows).

(** ** Sale aggregator: [get_sales] *)

Definition enrich (sp : Sales.t * Products.t) : SalesFrame.row :=
  let (s, p) := sp in
  SalesFrame.mk (Sales.id s) (Products.name p) (Sales.quantity_sold s)
    (Sales.sale_date s) (Products.price p)
    (inject_Z (Sales.quantity_sold s) * Products.price p)%Q.

Definition get_sales : DB (list SalesFrame.row) :=
  rows <- select_sales_join_products ;;
  ret (map enrich rows).

(** ** [groupby]

    Groups come out in ascending key order, one per distinct key, each
    with its rows in frame order.  [leb] is the order of the keys and
    [eqb] their equality. *)

Section GroupBy.
Context {R K : Type}.
Variable key : R -> K.
Variable eqb : K -> K -> bool.
Variable leb : K -> K -> bool.

Fixpoint unique (ks : list K) : list K :=
  match ks with
  | [] => []
  | k :: ks' => k :: filter (fun k' => negb (eqb k' k)) (unique ks')
  end.

Fixpoint insert_key (k : K) (ks : list K) : list K :=
  match ks with
  | [] => [k]
  | k' :: ks' => if leb k k' then k :: ks else k' :: insert_key k ks'
  end.

Definition sort_keys (ks : list K) : list K := fold_right insert_key [] ks.

Definition group_keys (rows : list R) : list K :=
  sort_keys (unique (map key rows)).

Definition groupby (rows : list R) : list (K * list R) :=
  map (fun k => (k, filter (fun r => eqb (key r) k) rows)) (group_keys rows).

End GroupBy.

Definition yw_eqb (a b : Z * Z) : bool :=
  (fst a =? fst b) && (snd a =? snd b).

Definition yw_leb (a b : Z * Z) : bool :=
  (fst a <? fst b) || ((fst a =? fst b) && (snd a <=? snd b)).

Definition yw_lt (a b : Z * Z) : Prop :=
  fst a < fst b \/ (fst a = fst b /\ snd a < snd b).

(** ** Weekly rollup: [get_weekly_sales] *)

(** The columns [Year] and [Week] that the rollup adds to a sale:
    [dt.year] and [dt.isocalendar().week]. *)
Definition sale_year (r : SalesFrame.row) : Z := year (SalesFrame.Sale_Date r).
Definition sale_week (r : SalesFrame.row) : Z :=
  iso_week (SalesFrame.Sale_Date r).
Definition year_week (r : SalesFrame.row) : Z * Z := (sale_year r, sale_week r).

Definition groupby_year_week := groupby year_week yw_eqb yw_leb.

(** [min] of a timestamp column; [None] is NaT. *)
Definition min_datetime (l : list datetime) : option datetime :=
  match l with
  | [] => None
  | t :: l' =>
      Some (fold_left (fun m u => if datetime_leb m u then m else u) l' t)
  end.

Definition weekly_rollup (sales : list SalesFrame.row)
  : list WeeklyFrame.row :=
  let weekly :=
    map (fun kg : Z * Z * list SalesFrame.row =>
           (fst kg,
            sum_int64 (map SalesFrame.Quantity_Sold (snd kg)),
            sum_Q (map SalesFrame.Revenue (snd kg))))
        (groupby_year_week sales) in
  let week_start :=
    map (fun kg : Z * Z * list SalesFrame.row =>
           option_map strftime_ymd
             (min_datetime (map SalesFrame.Sale_Date (snd kg))))
        (groupby_year_week sales) in
  map (fun wv : Z * Z * Z * Q * option string =>
         let '(k, q, r, v) := wv in
         WeeklyFrame.mk (fst k) (snd k) q r v)
      (combine weekly week_start).

Definition get_weekly_sales : DB (list WeeklyFrame.row) :=
  sales <- get_sales ;;
  ret (weekly_rollup sales).

(** ** Insights: [get_insights] *)

(** [Series.diff()]: NaN first, then the difference to the row before. *)
Fixpoint diff_from (prev : Z) (l : list Z) : list npfloat :=
  match l with
  | [] => []
  | x :: l' => fin (inject_Z (x - prev)) :: diff_from x l'
  end.

Definition diff (l : list Z) : list npfloat :=
  match l with
  | [] => []
  | x :: l' => nan :: diff_from x l'
  end.

Definition trend_of (x : npfloat) : string :=
  if np_gt x 0 then "Increasing"
  else if np_lt x 0 then "Decreasing"
  else "Stable".

Definition with_trend (weekly_sales : list WeeklyFrame.row)
  : list TrendFrame.row :=
  if (2 <=? List.length weekly_sales)%nat then
    map (fun wx => TrendFrame.mk (fst wx) (trend_of (snd wx)))
        (combine weekly_sales
                 (diff (map WeeklyFrame.Quantity_Sold weekly_sales)))
  else
    map (fun w => TrendFrame.mk w "Insufficient Data") weekly_sales.

Definition groupby_name := groupby SalesFrame.Name String.eqb String.leb.

Definition total_revenue (sales : list SalesFrame.row) : Q :=
  sum_Q (map SalesFrame.Revenue sales).

Definition revenue_contribution (sales : list SalesFrame.row)
  : list (string * npfloat) :=
  map (fun kg : string * list SalesFrame.row =>
         (fst kg,
          np_mul (np_truediv (sum_Q (map SalesFrame.Revenue (snd kg)))
                             (total_revenue sales)) 100))
      (groupby_name sales).

Definition recent_sales (now : datetime) (sales : list SalesFrame.row)
  : list SalesFrame.row :=
  filter (fun r =>
            to_microseconds now - timedelta_days 30
            <=? to_microseconds (SalesFrame.Sale_Date r)) sales.

Definition sales_velocity (recent : list SalesFrame.row)
  : list (string * Q) :=
  map (fun kg : string * list SalesFrame.row =>
         (fst kg,
          (inject_Z (sum_int64 (map SalesFrame.Quantity_Sold (snd kg)))
           / 30)%Q))
      (groupby_name recent).

Fixpoint lookup (n : string) (l : list (string * Q)) : option Q :=
  match l with
  | [] => None
  | (k, v) :: l' => if String.eqb k n then Some v else lookup n l'
  end.

(** The [Quantity Sold] column after [merge(..., how='left').fillna(0)]. *)
Definition merged_velocity (velocity : list (string * Q))
  (p : ProductsFrame.row) : Q :=
  match lookup (ProductsFrame.Name p) velocity with
  | Some v => v
  | None => 0%Q
  end.

Definition urgency_of (x : npfloat) : string :=
  if np_lt x 7 then "Urgent"
  else if np_lt x 14 then "Moderate"
  else "Low".

Definition restock_row (velocity : list (string * Q))
  (p : ProductsFrame.row) : RestockFrame.row :=
  let v := merged_velocity velocity p in
  let days := np_truediv (inject_Z (ProductsFrame.Quantity p)) v in
  RestockFrame.mk p v days (urgency_of days).

(** With at least one sale the merged [Quantity Sold] column is float64
    and the division follows IEEE-754.  Without any sale the column has
    object dtype and holds the integer 0 after [fillna(0)]: the division
    raises at the first product.  Without products nothing is divided. *)
Definition restock_recommendations (now : datetime)
  (products : list ProductsFrame.row) (sales : list SalesFrame.row)
  : raised (list RestockFrame.row) :=
  match sales, products with
  | [], _ :: _ => ZeroDivisionError
  | _, _ =>
      Returned
        (map (restock_row (sales_velocity (recent_sales now sales))) products)
  end.

Definition low_stock_of (products : list ProductsFrame.row)
  : list (string * Z * string) :=
  map (fun p => (ProductsFrame.Name p, ProductsFrame.Quantity p,
                 ProductsFrame.Stock_Status p))
      (filter (fun p => ProductsFrame.Quantity p <? 5) products).

Record insights : Set := mkInsights
  { low_stock : list (string * Z * string);
    weekly_sales : list TrendFrame.row;
    revenue_contribution_of : list (string * npfloat);
    restock : list RestockFrame.row }.

(** [get_insights], without its [top_products] component. *)
Definition get_insights (now : datetime) : DB (raised insights) :=
  products <- get_products ;;
  sales <- get_sales ;;
  weekly <- get_weekly_sales ;;
  ret (raised_map
         (mkInsights (low_stock_of products) (with_trend weekly)
            (revenue_contribution sales))
         (restock_recommendations now products sales)).

(** ** Writers: [add_product] and [record_sale]

    [uuid.uuid4()] and [datetime.now()] are explicit arguments.  Both
    tables have [id TEXT PRIMARY KEY]: an [INSERT] with an identifier that
    is already there raises [sqlite3.IntegrityError] and changes nothing.
    The [FOREIGN KEY] clause is not enforced, as the program never sets
    [PRAGMA foreign_keys].  New rows go to the end of their table. *)

Inductive outcome : Set :=
| Committed (c : conn)
| IntegrityError.

Definition product_exists (product_id : string) (c : conn) : bool :=
  existsb (fun p => String.eqb (Products.id p) product_id) (products c).

Definition sale_exists (sale_id : string) (c : conn) : bool :=
  existsb (fun s => String.eqb (Sales.id s) sale_id) (sales c).

Definition add_product (product_id name : string) (price : Q) (quantity : Z)
           (c : conn) : outcome :=
  if product_exists product_id c then IntegrityError
  else Committed
         (mkConn (products c ++ [Products.mk product_id name price quantity])
                 (sales c)).

(** What [strftime('%Y-%m-%d %H:%M:%S')] keeps of a timestamp. *)
Definition drop_microseconds (t : datetime) : datetime :=
  mkDatetime (year t) (month t) (day t) (hour t) (minute t) (second t) 0.

(** [UPDATE products SET quantity = quantity - ? WHERE id = ?], on one row. *)
Definition update_quantity (quantity_sold : Z) (product_id : string)
           (p : Products.t) : Products.t :=
  if String.eqb (Products.id p) product_id then
    Products.mk (Products.id p) (Products.name p) (Products.price p)
                (Products.quantity p - quantity_sold)
  else p.

Definition record_sale (sale_id : string) (now : datetime)
           (product_id : string) (quantity_sold : Z) (c : conn) : outcome :=
  if sale_exists sale_id c then IntegrityError
  else Committed
         (mkConn (map (update_quantity quantity_sold product_id) (products c))
                 (sales c ++ [Sales.mk sale_id product_id quantity_sold
                                       (drop_microseconds now)])).

(** ** The pages that write

    The result of submitting a form: the store after [st.success], one of
    the two [st.error] messages, or the exception that ends the run. *)

Inductive page_result : Set :=
| Success (c : conn)
| FillFieldsError
| InsufficientStock (available_quantity : Z)
| KeyError
| IndexError
| IntegrityFailure.

(** "Add Product": [if name and price > 0 and quantity >= 0]. *)
Definition add_product_page (product_id name : string) (price : Q)
           (quantity : Z) (c : conn) : page_result :=
  if negb (String.eqb name "") && Qltb 0 price && (0 <=? quantity) then
    match add_product product_id name price quantity c with
    | Committed c' => Success c'
    | IntegrityError => IntegrityFailure
    end
  else FillFieldsError.

(** A Python [dict] with string keys and values: assignment to a key that
    is present replaces its value in place. *)
Fixpoint dict_set (k v : string) (d : list (string * string))
  : list (string * string) :=
  match d with
  | [] => [(k, v)]
  | (k', v') :: d' =>
      if String.eqb k' k then (k', v) :: d' else (k', v') :: dict_set k v d'
  end.

Fixpoint dict_get (k : string) (d : list (string * string)) : option string :=
  match d with
  | [] => None
  | (k', v') :: d' => if String.eqb k' k then Some v' else dict_get k d'
  end.

(** [{row['Name']: row['ID'] for _, row in products.iterrows()}]. *)
Definition product_dict (products : list ProductsFrame.row)
  : list (string * string) :=
  fold_left (fun d row =>
               dict_set (ProductsFrame.Name row) (ProductsFrame.ID row) d)
            products [].

(** "Record Sale", with the selected name and the entered quantity. *)
Definition record_sale_page (sale_id : string) (now : datetime)
           (product_name : string) (quantity_sold : Z) (c : conn)
  : page_result :=
  let products := run get_products c in
  match dict_get product_name (product_dict products) with
  | None => KeyError
  | Some product_id =>
      match filter (fun r => String.eqb (ProductsFrame.ID r) product_id)
                   products with
      | [] => IndexError
      | r :: _ =>
          let available_quantity := ProductsFrame.Quantity r in
          if quantity_sold <=? available_quantity then
            match record_sale sale_id now product_id quantity_sold c with
            | Committed c' => Success c'
            | IntegrityError => IntegrityFailure
            end
          else InsufficientStock available_quantity
      end
  end.

(** A sequence of form submissions.  A submission that ends in
    [st.error] or in an exception commits nothing. *)
Inductive action : Set :=
| AddProduct (product_id name : string) (price : Q) (quantity : Z)
| RecordSale (sale_id : string) (now : datetime) (product_name : string)
             (quantity_sold : Z).

Definition submit (a : action) (c : conn) : page_result :=
  match a with
  | AddProduct product_id name price quantity =>
      add_product_page product_id name price quantity c
  | RecordSale sale_id now product_name quantity_sold =>
      record_sale_page sale_id now product_name quantity_sold c
  end.

Definition store_after (r : page_result) (c : conn) : conn :=
  match r with
  | Success c' => c'
  | _ => c
  end.

Fixpoint replay (acts : list action) (c : conn) : conn :=
  match acts with
  | [] => c
  | a :: acts' => replay acts' (store_after (submit a c) c)
  end.

(** [st.number_input("Quantity Sold", min_value=1)]. *)
Definition widget_ok (a : action) : Prop :=
  match a with
  | AddProduct _ _ _ _ => True
  | RecordSale _ _ _ quantity_sold => 1 <= quantity_sold
  end.

(** ** Notions used in the statements *)

(** The join of [select_sales_join_products], on the two tables. *)
Definition matches (s : Sales.t) (p : Products.t) : bool :=
  String.eqb (Sales.product_id s) (Products.id p).

Definition join (ps : list Products.t) (ss : list Sales.t)
  : list (Sales.t * Products.t) :=
  flat_map (fun s => map (fun p => (s, p)) (filter (matches s) ps)) ss.

(** The row that the rollup builds from one group. *)
Definition bucket_of (kg : Z * Z * list SalesFrame.row) : WeeklyFrame.row :=
  WeeklyFrame.mk (fst (fst kg)) (snd (fst kg))
    (sum_int64 (map SalesFrame.Quantity_Sold (snd kg)))
    (sum_Q (map SalesFrame.Revenue (snd kg)))
    (option_map strftime_ymd
       (min_datetime (map SalesFrame.Sale_Date (snd kg)))).


(** Quantity sold, summed over the rows of [recent] whose product name
    is [n]. *)
Definition name_quantity (n : string) (recent : list SalesFrame.row) : Z :=
  sum_Z (map SalesFrame.Quantity_Sold
           (filter (fun r => String.eqb (SalesFrame.Name r) n) recent)).

(** The insights when nothing is raised. *)
Definition insights_of (now : datetime) (c : conn) : insights :=
  mkInsights (low_stock_of (run get_products c))
    (with_trend (run get_weekly_sales c))
    (revenue_contribution (run get_sales c))
    (map (restock_row (sales_velocity (recent_sales now (run get_sales c))))
         (run get_products c)).

(** Quantity sold under the name [n] in the sales dated at or after
    [now] minus 30 days, as an exact sum. *)
Definition windowed_quantity (now : datetime) (n : string)
           (sales : list SalesFrame.row) : Z :=
  sum_Z (map SalesFrame.Quantity_Sold
           (filter (fun r =>
                      String.eqb (SalesFrame.Name r) n
                      && (to_microseconds now - timedelta_days 30
                          <=? to_microseconds (SalesFrame.Sale_Date r)))
                   sales)).

(** ISO-8601 (year, week) of the timestamp of a sale. *)
Definition iso_year_week (r : SalesFrame.row) : Z * Z :=
  (iso_year (SalesFrame.Sale_Date r), iso_week (SalesFrame.Sale_Date r)).

(** The sales of a frame that carry the key of a bucket: calendar year
    and ISO week of the timestamp. *)
Definition sales_of_bucket (w : WeeklyFrame.row)
           (sales : list SalesFrame.row) : list SalesFrame.row :=
  filter (fun r =>
            (year (SalesFrame.Sale_Date r) =? WeeklyFrame.Year w)
            && (iso_week (SalesFrame.Sale_Date r) =? WeeklyFrame.Week w))
         sales.

(** Key of a weekly bucket. *)
Definition bucket_key (w : WeeklyFrame.row) : Z * Z :=
  (WeeklyFrame.Year w, WeeklyFrame.Week w).

(** Units of a product on hand and units of it sold, by identifier. *)
Definition on_hand (product_id : string) (c : conn) : Z :=
  sum_Z (map Products.quantity
           (filter (fun p => String.eqb (Products.id p) product_id)
                   (products c))).

Definition units_sold (product_id : string) (c : conn) : Z :=
  sum_Z (map Sales.quantity_sold
           (filter (fun s => String.eqb (Sales.product_id s) product_id)
                   (sales c))).

(** What the two writing pages keep true of the store. *)
Definition product_ok (p : Products.t) : Prop :=
  Products.name p <> "" /\ (0 < Products.price p)%Q
  /\ 0 <= Products.quantity p.

Definition sale_ok (c : conn) (s : Sales.t) : Prop :=
  product_exists (Sales.product_id s) c = true
  /\ 1 <= Sales.quantity_sold s.

Record store_ok (c : conn) : Prop := mkStoreOk
  { product_ids_unique : NoDup (map Products.id (products c));
    sale_ids_unique : NoDup (map Sales.id (sales c));
    products_ok : Forall product_ok (products c);
    sales_ok : Forall (sale_ok c) (sales c) }.

Definition empty_shop : conn := mkConn [] [].

(** The last element of a list that satisfies [f]. *)
Definition find_last {A : Type} (f : A -> bool) (l : list A) : option A :=
  find f (rev l).

Definition no_weekly_row : WeeklyFrame.row :=
  WeeklyFrame.mk 0 0 0 0 None.

(** What the "Record Sale" page does when product identifiers are
    unique. *)
Definition record_sale_page_spec (sale_id : string) (now : datetime)
           (product_name : string) (quantity_sold : Z) (c : conn)
  : page_result :=
  match find_last (fun p => String.eqb (Products.name p) product_name)
                  (products c) with
  | None => KeyError
  | Some p =>
      if quantity_sold <=? Products.quantity p then
        match record_sale sale_id now (Products.id p) quantity_sold c with
        | Committed c' => Success c'
        | IntegrityError => IntegrityFailure
        end
      else InsufficientStock (Products.quantity p)
  end.

(** The frame row of a product. *)
Definition product_row (p : Products.t) : ProductsFrame.row :=
  ProductsFrame.mk (Products.id p) (Products.name p) (Products.price p)
    (Products.quantity p) (stock_status (Products.quantity p)).

(** The aggregated row of a sale recorded now. *)
Definition recorded_row (sale_id : string) (now : datetime)
           (quantity_sold : Z) (p : Products.t) : SalesFrame.row :=
  SalesFrame.mk sale_id (Products.name p) quantity_sold
    (drop_microseconds now) (Products.price p)
    (inject_Z quantity_sold * Products.price p)%Q.


Definition no_restock_row : RestockFrame.row :=
  RestockFrame.mk (ProductsFrame.mk "" "" 0 0 "") 0 nan "".

Definition no_sale_row : SalesFrame.row :=
  SalesFrame.mk "" "" 0 (mkDatetime 1 1 1 0 0 0 0) 0 0.

Definition no_product_row : ProductsFrame.row :=
  ProductsFrame.mk "" "" 0 0 "".

(** ** Sample stores *)

Definition noon (y m d : Z) : datetime := mkDatetime y m d 12 0 0 0.

(** Two sales around the turn of the year 2024/2025: Monday 2024-12-23
    lies in ISO week 2024-W52, Monday 2024-12-30 in ISO week 2025-W01. *)
Definition new_year_shop : conn :=
  mkConn
    [Products.mk "p1" "Tea" (5 # 2) 40]
    [Sales.mk "s1" "p1" 3 (noon 2024 12 23);
     Sales.mk "s2" "p1" 5 (noon 2024 12 30)].

Definition dec31_sale : SalesFrame.row :=
  SalesFrame.mk "s9" "Tea" 1 (mkDatetime 2024 12 31 10 0 0 0) (5 # 2) (5 # 2).

(** A small shop: three products, one sale that refers to no product. *)
Definition corner_shop : conn :=
  mkConn
    [Products.mk "p1" "Tea" (5 # 2) 4;
     Products.mk "p2" "Milk" 1 0;
     Products.mk "p3" "Rice" 3 5]
    [Sales.mk "s1" "p1" 3 (noon 2025 1 6);
     Sales.mk "s2" "p9" 7 (noon 2025 1 7);
     Sales.mk "s3" "p2" 2 (noon 2025 1 14);
     Sales.mk "s4" "p1" 2 (noon 2025 1 14)].

Definition corner_shop_now : datetime := noon 2025 1 20.


(** A product whose stock count has gone below zero and that was never
    sold, next to a product with one recent sale. *)
Definition oversold_shop : conn :=
  mkConn
    [Products.mk "p1" "Tea" (5 # 2) (-1);
     Products.mk "p2" "Milk" 1 10]
    [Sales.mk "s1" "p2" 2 (noon 2025 1 14)].

(** Two products with the same name; only the second one was ever sold. *)
Definition namesake_shop : conn :=
  mkConn
    [Products.mk "p1" "Tea" (5 # 2) 3;
     Products.mk "p2" "Tea" (5 # 2) 40]
    [Sales.mk "s1" "p2" 30 (noon 2025 1 10)].

(** Two sales of 2^62 units in one week. *)
Definition bulk_sales : list SalesFrame.row :=
  [SalesFrame.mk "s1" "Grain" 4611686018427387904 (noon 2025 1 6) 1
                 4611686018427387904;
   SalesFrame.mk "s2" "Grain" 4611686018427387904 (noon 2025 1 7) 1
                 4611686018427387904].

(** Two sales in ISO week 2020-W53, on either side of the new year. *)
Definition year_end_2020_sales : list SalesFrame.row :=
  [SalesFrame.mk "s1" "Tea" 1 (noon 2020 12 31) 1 1;
   SalesFrame.mk "s2" "Tea" 1 (noon 2021 1 1) 1 1].

(** A shop that has not sold anything yet. *)
Definition new_shop : conn :=
  mkConn [Products.mk "p1" "Tea" (5 # 2) 10] [].

(** A morning at the till: a product is added, three units are sold, a
    sale of more than the stock is refused, and a second product under
    the identifier of the first is refused too. *)
Definition morning : list action :=
  [AddProduct "p1" "Tea" (5 # 2) 10;
   RecordSale "s1" (mkDatetime 2025 1 20 9 30 0 250000) "Tea" 3;
   RecordSale "s2" (mkDatetime 2025 1 20 9 45 0 0) "Tea" 20;
   AddProduct "p1" "Milk" 1 5].

(** * Properties *)

(** ** Sums *)

Lemma sum_Z_app (l1 l2 : list Z) : sum_Z (l1 ++ l2) = sum_Z l1 + sum_Z l2.
Proof.
  induction l1 as [|x l1 IH]; simpl; [reflexivity|]. rewrite IH. lia.
Qed.

Lemma sum_Z_concat (ls : list (list Z)) :
  sum_Z (List.concat ls) = sum_Z (map sum_Z ls).
Proof.
  induction ls as [|l ls IH]; simpl; [reflexivity|].
  rewrite sum_Z_app, IH. reflexivity.
Qed.

Lemma sum_Z_perm (l1 l2 : list Z) :
  Permutation l1 l2 -> sum_Z l1 = sum_Z l2.
Proof.
  induction 1; simpl; lia.
Qed.

Lemma sum_Q_app (l1 l2 : list Q) :
  (sum_Q (l1 ++ l2) == sum_Q l1 + sum_Q l2)%Q.
Proof.
  induction l1 as [|x l1 IH]; simpl.
  - ring.
  - rewrite IH. ring.
Qed.

Lemma sum_Q_concat (ls : list (list Q)) :
  (sum_Q (List.concat ls) == sum_Q (map sum_Q ls))%Q.
Proof.
  induction ls as [|l ls IH]; simpl.
  - reflexivity.
  - rewrite sum_Q_app, IH. reflexivity.
Qed.

Lemma sum_Q_perm (l1 l2 : list Q) :
  Permutation l1 l2 -> (sum_Q l1 == sum_Q l2)%Q.
Proof.
  induction 1; simpl.
  - reflexivity.
  - rewrite IHPermutation. reflexivity.
  - ring.
  - etransitivity; eassumption.
Qed.


(** ** int64 sums *)

Lemma wrap64_add_l (a b : Z) : wrap64 (wrap64 a + b) = wrap64 (a + b).
Proof.
  unfold wrap64. f_equal.
  replace ((a + 9223372036854775808) mod 18446744073709551616
           - 9223372036854775808 + b + 9223372036854775808)
    with ((a + 9223372036854775808) mod 18446744073709551616 + b) by lia.
  rewrite Zplus_mod_idemp_l. f_equal. lia.
Qed.

Lemma wrap64_small (x : Z) :
  -9223372036854775808 <= x < 9223372036854775808 -> wrap64 x = x.
Proof.
  intros H. unfold wrap64. rewrite Z.mod_small; lia.
Qed.

Lemma wrap64_range (x : Z) :
  -9223372036854775808 <= wrap64 x < 9223372036854775808.
Proof.
  unfold wrap64.
  pose proof (Z.mod_pos_bound (x + 9223372036854775808)
                18446744073709551616 ltac:(lia)).
  lia.
Qed.

(** Accumulating in int64 gives the exact sum, wrapped once. *)
Lemma sum_int64_wrap (l : list Z) : sum_int64 l = wrap64 (sum_Z l).
Proof.
  unfold sum_int64.
  assert (H : forall a,
            fold_left (fun acc x => wrap64 (acc + x)) l (wrap64 a)
            = wrap64 (a + sum_Z l)).
  { induction l as [|x l IH]; intros a; simpl.
    - f_equal. lia.
    - rewrite wrap64_add_l, IH. f_equal. lia. }
  exact (H 0).
Qed.

Lemma sum_Z_wrapped (l : list Z) :
  wrap64 (sum_Z (map wrap64 l)) = wrap64 (sum_Z l).
Proof.
  induction l as [|x l IH]; simpl; [reflexivity|].
  rewrite wrap64_add_l, Z.add_comm, <- wrap64_add_l, IH, wrap64_add_l.
  f_equal. lia.
Qed.

Lemma sum_Z_filter_bounds {A : Type} (f : A -> Z) (g : A -> bool)
      (l : list A) :
  (forall x, In x l -> 0 <= f x) ->
  0 <= sum_Z (map f (filter g l)) <= sum_Z (map f l).
Proof.
  induction l as [|a l IH]; simpl; intros H; [lia|].
  pose proof (H a (or_introl eq_refl)) as Ha.
  assert (IH' := IH (fun x Hx => H x (or_intror Hx))).
  destruct (g a); simpl; lia.
Qed.

(** ** [groupby] *)

Lemma filter_none {A : Type} (l : list A) : filter (fun _ => false) l = [].
Proof.
  induction l; simpl; auto.
Qed.

Lemma filter_all {A : Type} (f : A -> bool) (l : list A) :
  (forall x, In x l -> f x = true) -> filter f l = l.
Proof.
  induction l as [|a l IH]; simpl; intros H; [reflexivity|].
  rewrite (H a (or_introl eq_refl)). f_equal. apply IH. auto.
Qed.

Lemma filter_split_perm {A : Type} (f g : A -> bool) (l : list A) :
  (forall x, f x = true -> g x = true -> False) ->
  Permutation (filter f l ++ filter g l) (filter (fun x => f x || g x) l).
Proof.
  intros Hfg. induction l as [|a l IH]; simpl; [constructor|].
  destruct (f a) eqn:Ef, (g a) eqn:Eg; simpl.
  - exfalso. eauto.
  - constructor. exact IH.
  - etransitivity; [symmetry; apply Permutation_middle|].
    constructor. exact IH.
  - exact IH.
Qed.

Section GroupByFacts.
Context {R K : Type}.
Variable key : R -> K.
Variable eqb : K -> K -> bool.
Variable leb : K -> K -> bool.
Hypothesis eqb_eq : forall a b, eqb a b = true <-> a = b.

Lemma eqb_same (a : K) : eqb a a = true.
Proof.
  apply eqb_eq. reflexivity.
Qed.

Lemma In_unique (k : K) (ks : list K) : In k (unique eqb ks) <-> In k ks.
Proof.
  induction ks as [|a ks IH]; simpl; [tauto|].
  rewrite filter_In, IH. split.
  - intros [H|[H _]]; auto.
  - intros [H|H]; auto.
    destruct (eqb k a) eqn:E.
    + left. symmetry. apply eqb_eq. exact E.
    + right. auto.
Qed.

Lemma NoDup_unique (ks : list K) : NoDup (unique eqb ks).
Proof.
  induction ks as [|a ks IH]; simpl; constructor.
  - rewrite filter_In, eqb_same. simpl. intros [_ H]. discriminate.
  - apply NoDup_filter. exact IH.
Qed.

Lemma insert_key_perm (k : K) (ks : list K) :
  Permutation (insert_key leb k ks) (k :: ks).
Proof.
  induction ks as [|a ks IH]; simpl; [reflexivity|].
  destruct (leb k a); [reflexivity|].
  etransitivity; [apply perm_skip, IH | apply perm_swap].
Qed.

Lemma sort_keys_perm (ks : list K) : Permutation (sort_keys leb ks) ks.
Proof.
  induction ks as [|a ks IH]; simpl; [constructor|].
  etransitivity; [apply insert_key_perm | apply perm_skip, IH].
Qed.

Lemma group_keys_NoDup (rows : list R) : NoDup (group_keys key eqb leb rows).
Proof.
  unfold group_keys.
  eapply Permutation_NoDup; [symmetry; apply sort_keys_perm|].
  apply NoDup_unique.
Qed.

Lemma In_group_keys (k : K) (rows : list R) :
  In k (group_keys key eqb leb rows) <-> In k (map key rows).
Proof.
  unfold group_keys. split; intros H.
  - apply In_unique.
    eapply Permutation_in; [apply sort_keys_perm | exact H].
  - apply In_unique in H.
    eapply Permutation_in; [symmetry; apply sort_keys_perm | exact H].
Qed.

Lemma groupby_keys (rows : list R) :
  map fst (groupby key eqb leb rows) = group_keys key eqb leb rows.
Proof.
  unfold groupby. rewrite map_map. simpl. apply map_id.
Qed.

Lemma groupby_groups (rows : list R) :
  map snd (groupby key eqb leb rows)
  = map (fun k => filter (fun r => eqb (key r) k) rows)
        (group_keys key eqb leb rows).
Proof.
  unfold groupby. rewrite map_map. reflexivity.
Qed.

Lemma groups_perm (rows : list R) (ks : list K) :
  NoDup ks ->
  Permutation
    (List.concat (map (fun k => filter (fun r => eqb (key r) k) rows) ks))
    (filter (fun r => existsb (eqb (key r)) ks) rows).
Proof.
  induction 1 as [|k ks Hk Hnd IH]; simpl.
  - rewrite filter_none. constructor.
  - etransitivity; [apply Permutation_app_head, IH|].
    apply filter_split_perm. intros r Hr Hex.
    apply eqb_eq in Hr. apply existsb_exists in Hex.
    destruct Hex as [k' [Hin Hk']]. apply eqb_eq in Hk'.
    apply Hk. congruence.
Qed.

(** The groups partition the frame. *)
Lemma groupby_perm (rows : list R) :
  Permutation (List.concat (map snd (groupby key eqb leb rows))) rows.
Proof.
  rewrite groupby_groups.
  etransitivity; [apply groups_perm, group_keys_NoDup|].
  rewrite filter_all; [reflexivity|].
  intros r Hr. apply existsb_exists. exists (key r). split.
  - apply In_group_keys. apply in_map. exact Hr.
  - apply eqb_same.
Qed.

(** No group is empty. *)
Lemma groupby_nonempty (k : K) (g : list R) (rows : list R) :
  In (k, g) (groupby key eqb leb rows) -> g <> [].
Proof.
  unfold groupby. rewrite in_map_iff. intros [k' [E Hin]].
  inversion E; subst. apply In_group_keys in Hin.
  apply in_map_iff in Hin. destruct Hin as [r [Hr Hin]].
  intros Hnil.
  assert (H : In r (filter (fun r0 => eqb (key r0) k) rows)).
  { apply filter_In. split; [exact Hin|]. apply eqb_eq. exact Hr. }
  rewrite Hnil in H. exact H.
Qed.

Hypothesis leb_total : forall a b, leb a b = true \/ leb b a = true.
Hypothesis leb_trans :
  forall a b c, leb a b = true -> leb b c = true -> leb a c = true.

Let le (a b : K) : Prop := leb a b = true.

Lemma insert_key_Sorted (k : K) (ks : list K) :
  Sorted le ks -> Sorted le (insert_key leb k ks).
Proof.
  induction 1 as [|a ks Hs IH Hhd]; simpl.
  - repeat constructor.
  - destruct (leb k a) eqn:E.
    + constructor; [constructor; assumption|]. constructor. exact E.
    + assert (Hak : le a k).
      { destruct (leb_total a k) as [H|H]; [exact H|]. congruence. }
      constructor; [exact IH|].
      destruct ks as [|b ks]; simpl.
      * constructor. exact Hak.
      * inversion Hhd; subst.
        destruct (leb k b); constructor; assumption.
Qed.

Lemma sort_keys_Sorted (ks : list K) : StronglySorted le (sort_keys leb ks).
Proof.
  apply Sorted_StronglySorted.
  - intros a b c. apply leb_trans.
  - induction ks as [|a ks IH]; simpl; [constructor|].
    apply insert_key_Sorted. exact IH.
Qed.

Lemma group_keys_Sorted (rows : list R) :
  StronglySorted (fun a b => leb a b = true /\ a <> b)
                 (group_keys key eqb leb rows).
Proof.
  pose proof (group_keys_NoDup rows) as Hnd.
  unfold group_keys in *.
  pose proof (sort_keys_Sorted (unique eqb (map key rows))) as Hs.
  induction Hs as [|a l Hs IH Hall]; constructor.
  - apply IH. inversion Hnd; assumption.
  - inversion Hnd as [|? ? Hnotin _]; subst.
    rewrite Forall_forall in *. intros b Hb. split.
    + apply Hall. exact Hb.
    + intros ->. apply Hnotin. exact Hb.
Qed.

End GroupByFacts.


(** ** Calendar *)

(** The two routes to the ISO calendar agree on every date of the years
    2000 to 2049. *)
Lemma isocalendar_routes_agree :
  forallb (fun k => forallb same_calendar (dates_of_year (2000 + Z.of_nat k)))
          (seq 0 50) = true.
Proof.
  vm_compute. reflexivity.
Qed.

(** The week of the bucket key is the ISO week; the key is the ISO
    (year, week) exactly when the ISO year is the calendar year. *)
Lemma year_week_iso (r : SalesFrame.row) :
  year_week r
  = (iso_year (SalesFrame.Sale_Date r), iso_week (SalesFrame.Sale_Date r))
  <-> iso_year (SalesFrame.Sale_Date r) = year (SalesFrame.Sale_Date r).
Proof.
  unfold year_week, sale_year, sale_week. split.
  - intros E. injection E as E'. symmetry. exact E'.
  - intros E. rewrite E. reflexivity.
Qed.

(** ** Keys of the weekly buckets *)

Lemma yw_eqb_eq (a b : Z * Z) : yw_eqb a b = true <-> a = b.
Proof.
  destruct a as [y1 w1], b as [y2 w2]. unfold yw_eqb. simpl.
  rewrite andb_true_iff, !Z.eqb_eq. split.
  - intros [-> ->]. reflexivity.
  - intros E. inversion E. auto.
Qed.

Lemma yw_leb_spec (a b : Z * Z) :
  yw_leb a b = true <-> fst a < fst b \/ (fst a = fst b /\ snd a <= snd b).
Proof.
  unfold yw_leb.
  rewrite orb_true_iff, andb_true_iff, Z.ltb_lt, Z.eqb_eq, Z.leb_le.
  reflexivity.
Qed.

Lemma yw_leb_total (a b : Z * Z) : yw_leb a b = true \/ yw_leb b a = true.
Proof.
  rewrite !yw_leb_spec. lia.
Qed.

Lemma yw_leb_trans (a b c : Z * Z) :
  yw_leb a b = true -> yw_leb b c = true -> yw_leb a c = true.
Proof.
  rewrite !yw_leb_spec. lia.
Qed.

Lemma yw_leb_lt (a b : Z * Z) : yw_leb a b = true /\ a <> b -> yw_lt a b.
Proof.
  rewrite yw_leb_spec. unfold yw_lt. intros [H Hne].
  destruct a as [y1 w1], b as [y2 w2]. simpl in *.
  destruct H as [H|[H1 H2]]; [left; exact H|].
  right. split; [exact H1|].
  destruct (Z.eq_dec w1 w2) as [E|E]; [|lia].
  exfalso. apply Hne. congruence.
Qed.

Lemma yw_lt_neq (a b : Z * Z) : yw_lt a b -> a <> b.
Proof.
  unfold yw_lt. intros H ->. lia.
Qed.

Lemma StronglySorted_impl {A : Type} (P Q : A -> A -> Prop) (l : list A) :
  (forall a b, P a b -> Q a b) -> StronglySorted P l -> StronglySorted Q l.
Proof.
  intros HPQ. induction 1 as [|a l Hs IH Hall]; constructor.
  - exact IH.
  - eapply Forall_impl; [|exact Hall]. intros b. apply HPQ.
Qed.

Lemma StronglySorted_yw_lt_NoDup (l : list (Z * Z)) :
  StronglySorted yw_lt l -> NoDup l.
Proof.
  induction 1 as [|a l Hs IH Hall]; constructor.
  - intros Hin. rewrite Forall_forall in Hall.
    apply (yw_lt_neq a a); [apply Hall; exact Hin | reflexivity].
  - exact IH.
Qed.

(** ** Weekly rollup *)

Lemma combine_map_same {A B C : Type} (f : A -> B) (g : A -> C) (l : list A) :
  combine (map f l) (map g l) = map (fun x => (f x, g x)) l.
Proof.
  induction l as [|a l IH]; simpl; [reflexivity|]. rewrite IH. reflexivity.
Qed.

Lemma weekly_rollup_buckets (sales : list SalesFrame.row) :
  weekly_rollup sales = map bucket_of (groupby_year_week sales).
Proof.
  unfold weekly_rollup. rewrite combine_map_same, map_map. reflexivity.
Qed.

Lemma weekly_rollup_keys (sales : list SalesFrame.row) :
  map bucket_key (weekly_rollup sales)
  = group_keys year_week yw_eqb yw_leb sales.
Proof.
  rewrite weekly_rollup_buckets, map_map.
  rewrite <- (groupby_keys year_week yw_eqb yw_leb).
  apply map_ext. intros [[y w] g]. reflexivity.
Qed.

Lemma weekly_rollup_sorted (sales : list SalesFrame.row) :
  StronglySorted yw_lt (map bucket_key (weekly_rollup sales)).
Proof.
  rewrite weekly_rollup_keys.
  apply StronglySorted_impl with (2 := group_keys_Sorted year_week yw_eqb
    yw_leb yw_eqb_eq yw_leb_total yw_leb_trans sales).
  intros a b. apply yw_leb_lt.
Qed.

Lemma group_quantity_total (sales : list SalesFrame.row) :
  sum_Z (map (fun kg : Z * Z * list SalesFrame.row =>
                sum_Z (map SalesFrame.Quantity_Sold (snd kg)))
             (groupby_year_week sales))
  = sum_Z (map SalesFrame.Quantity_Sold sales).
Proof.
  rewrite <- (map_map snd (fun g => sum_Z (map SalesFrame.Quantity_Sold g))).
  rewrite <- (map_map (map SalesFrame.Quantity_Sold) sum_Z).
  rewrite <- sum_Z_concat, <- concat_map.
  apply sum_Z_perm, Permutation_map.
  apply (groupby_perm year_week yw_eqb yw_leb yw_eqb_eq).
Qed.

Lemma weekly_rollup_group_sums (sales : list SalesFrame.row) :
  map WeeklyFrame.Quantity_Sold (weekly_rollup sales)
  = map wrap64
        (map (fun kg : Z * Z * list SalesFrame.row =>
                sum_Z (map SalesFrame.Quantity_Sold (snd kg)))
             (groupby_year_week sales)).
Proof.
  rewrite weekly_rollup_buckets, !map_map. apply map_ext.
  intros kg. simpl. apply sum_int64_wrap.
Qed.

(** The bucket totals agree with the total over the sales modulo 2^64. *)
Lemma weekly_rollup_quantity_wrapped (sales : list SalesFrame.row) :
  wrap64 (sum_Z (map WeeklyFrame.Quantity_Sold (weekly_rollup sales)))
  = wrap64 (sum_Z (map SalesFrame.Quantity_Sold sales)).
Proof.
  rewrite weekly_rollup_group_sums, sum_Z_wrapped, group_quantity_total.
  reflexivity.
Qed.

(** Without wrap-around they agree exactly. *)
Lemma weekly_rollup_quantity (sales : list SalesFrame.row) :
  (forall r, In r sales -> 0 <= SalesFrame.Quantity_Sold r) ->
  sum_Z (map SalesFrame.Quantity_Sold sales) < 9223372036854775808 ->
  sum_Z (map WeeklyFrame.Quantity_Sold (weekly_rollup sales))
  = sum_Z (map SalesFrame.Quantity_Sold sales).
Proof.
  intros Hpos Hmax. rewrite weekly_rollup_group_sums.
  rewrite <- group_quantity_total. f_equal.
  rewrite <- (map_id (map _ (groupby_year_week sales))) at 2.
  apply map_ext_in. intros x Hx. apply in_map_iff in Hx.
  destruct Hx as [kg [<- Hkg]]. unfold groupby_year_week, groupby in Hkg.
  apply in_map_iff in Hkg. destruct Hkg as [k [<- _]]. simpl.
  pose proof (sum_Z_filter_bounds SalesFrame.Quantity_Sold
                (fun r => yw_eqb (year_week r) k) sales Hpos).
  apply wrap64_small. lia.
Qed.

Lemma weekly_rollup_revenue (sales : list SalesFrame.row) :
  (sum_Q (map WeeklyFrame.Revenue (weekly_rollup sales))
   == sum_Q (map SalesFrame.Revenue sales))%Q.
Proof.
  rewrite weekly_rollup_buckets, map_map. simpl.
  rewrite <- (map_map snd (fun g => sum_Q (map SalesFrame.Revenue g))).
  rewrite <- (map_map (map SalesFrame.Revenue) sum_Q).
  rewrite <- sum_Q_concat, <- concat_map.
  apply sum_Q_perm, Permutation_map.
  apply (groupby_perm year_week yw_eqb yw_leb yw_eqb_eq).
Qed.

Lemma run_get_weekly_sales (c : conn) :
  run get_weekly_sales c = weekly_rollup (run get_sales c).
Proof.
  reflexivity.
Qed.

(** ** Stock classifier *)

Lemma get_products_rows (c : conn) (r : ProductsFrame.row) :
  In r (run get_products c) ->
  ProductsFrame.Stock_Status r = stock_status (ProductsFrame.Quantity r)
  /\ exists p, In p (products c)
       /\ ProductsFrame.ID r = Products.id p
       /\ ProductsFrame.Name r = Products.name p
       /\ ProductsFrame.Quantity r = Products.quantity p.
Proof.
  unfold run, get_products, bind, select_products, ret. simpl.
  rewrite in_map_iff. intros [p [<- Hp]]. simpl. split; [reflexivity|].
  exists p. auto.
Qed.

Lemma stock_status_cases (x : Z) :
  (x = 0 -> stock_status x = "Out of Stock")
  /\ (x <> 0 -> x < 5 -> stock_status x = "Low Stock")
  /\ (5 <= x -> stock_status x = "In Stock").
Proof.
  unfold stock_status.
  destruct (Z.eqb_spec x 0) as [E|E]; destruct (Z.ltb_spec x 5) as [L|L];
    repeat split; intros; try reflexivity; lia.
Qed.

(** ** Trend *)

Lemma Qltb_inject_Z (a b : Z) : Qltb (inject_Z a) (inject_Z b) = (a <? b).
Proof.
  unfold Qltb, Qle_bool. simpl. rewrite !Z.mul_1_r.
  rewrite Z.ltb_antisym. reflexivity.
Qed.



Lemma with_trend_long (w : list WeeklyFrame.row) :
  (2 <= List.length w)%nat ->
  with_trend w
  = map (fun wx => TrendFrame.mk (fst wx) (trend_of (snd wx)))
        (combine w (diff (map WeeklyFrame.Quantity_Sold w))).
Proof.
  intros H. unfold with_trend.
  destruct (Nat.leb_spec 2 (List.length w)); [reflexivity | lia].
Qed.




Lemma with_trend_first (w : list WeeklyFrame.row) :
  (2 <= List.length w)%nat ->
  exists x rest,
    with_trend w = TrendFrame.mk x "Stable" :: rest
    /\ hd_error w = Some x.
Proof.
  intros Hlen. rewrite (with_trend_long w Hlen).
  destruct w as [|x w]; [simpl in Hlen; lia|].
  simpl. eexists. eexists. split; reflexivity.
Qed.

Lemma run_get_insights (now : datetime) (c : conn) :
  run (get_insights now) c
  = match run get_sales c, run get_products c with
    | [], _ :: _ => ZeroDivisionError
    | _, _ => Returned (insights_of now c)
    end.
Proof.
  assert (E : run (get_insights now) c
              = raised_map
                  (mkInsights (low_stock_of (run get_products c))
                     (with_trend (run get_weekly_sales c))
                     (revenue_contribution (run get_sales c)))
                  (restock_recommendations now (run get_products c)
                     (run get_sales c))) by reflexivity.
  rewrite E. unfold restock_recommendations, insights_of.
  destruct (run get_sales c); destruct (run get_products c); reflexivity.
Qed.

(** [get_insights] returns when there is a sale or no product at all. *)
Lemma get_insights_returns (now : datetime) (c : conn) :
  run get_sales c <> [] \/ products c = [] ->
  run (get_insights now) c = Returned (insights_of now c).
Proof.
  intros H. rewrite run_get_insights.
  destruct (run get_sales c) as [|r rows]; [|reflexivity].
  destruct H as [H|H]; [congruence|].
  unfold run, get_products, bind, select_products, ret. simpl.
  rewrite H. reflexivity.
Qed.

(** It raises when there is a product and no aggregated sale. *)
Lemma get_insights_raises (now : datetime) (c : conn) :
  run get_sales c = [] -> products c <> [] ->
  run (get_insights now) c = ZeroDivisionError.
Proof.
  intros Hs Hp. rewrite run_get_insights, Hs.
  unfold run, get_products, bind, select_products, ret. simpl.
  destruct (products c); [congruence | reflexivity].
Qed.

Lemma get_insights_returned (now : datetime) (c : conn) (ins : insights) :
  run (get_insights now) c = Returned ins ->
  ins = insights_of now c
  /\ (run get_sales c <> [] \/ products c = []).
Proof.
  rewrite run_get_insights.
  destruct (run get_sales c) as [|r rows] eqn:Es.
  - unfold run, get_products, bind, select_products, ret. simpl.
    destruct (products c) as [|p ps]; simpl; [|discriminate].
    intros H. injection H as <-. auto.
  - intros H. injection H as <-. split; [reflexivity|]. left. discriminate.
Qed.

Lemma weekly_nonempty_sales (c : conn) :
  (1 <= List.length (run get_weekly_sales c))%nat -> run get_sales c <> [].
Proof.
  intros H E. rewrite run_get_weekly_sales, E in H. simpl in H. lia.
Qed.

(** ** Sale aggregator *)

Lemma run_get_sales (c : conn) :
  run get_sales c = map enrich (join (products c) (sales c)).
Proof.
  reflexivity.
Qed.

Lemma get_sales_reads_only (c : conn) : snd (get_sales c) = c.
Proof.
  reflexivity.
Qed.

Lemma In_join (ps : list Products.t) (ss : list Sales.t)
      (s : Sales.t) (p : Products.t) :
  In (s, p) (join ps ss)
  <-> In s ss /\ In p ps /\ Sales.product_id s = Products.id p.
Proof.
  unfold join. rewrite in_flat_map. split.
  - intros [s' [Hs' Hin]]. apply in_map_iff in Hin.
    destruct Hin as [p' [E Hp']]. inversion E; subst.
    apply filter_In in Hp'. destruct Hp' as [Hp' Hm].
    apply String.eqb_eq in Hm. auto.
  - intros [Hs [Hp E]]. exists s. split; [exact Hs|].
    apply in_map. apply filter_In. split; [exact Hp|].
    apply String.eqb_eq. exact E.
Qed.

Lemma join_app (ps : list Products.t) (l1 l2 : list Sales.t) :
  join ps (l1 ++ l2)%list = (join ps l1 ++ join ps l2)%list.
Proof.
  unfold join. apply flat_map_app.
Qed.

Lemma join_orphan (ps : list Products.t) (s : Sales.t) :
  (forall p, In p ps -> Products.id p <> Sales.product_id s) ->
  join ps [s] = [].
Proof.
  intros H. unfold join. simpl. rewrite app_nil_r.
  replace (filter (matches s) ps) with (@nil Products.t); [reflexivity|].
  symmetry. induction ps as [|p ps IH]; simpl; [reflexivity|].
  unfold matches at 1.
  destruct (String.eqb_spec (Sales.product_id s) (Products.id p)) as [E|E].
  - exfalso. apply (H p); [left; reflexivity | congruence].
  - apply IH. intros q Hq. apply H. right. exact Hq.
Qed.

Lemma NoDup_map_inj {A B : Type} (f : A -> B) (l : list A) (a b : A) :
  NoDup (map f l) -> In a l -> In b l -> f a = f b -> a = b.
Proof.
  induction l as [|x l IH]; simpl; intros Hnd Ha Hb E; [contradiction|].
  inversion Hnd as [|? ? Hx Hnd']; subst.
  destruct Ha as [->|Ha], Hb as [->|Hb].
  - reflexivity.
  - exfalso. apply Hx. rewrite E. apply in_map. exact Hb.
  - exfalso. apply Hx. rewrite <- E. apply in_map. exact Ha.
  - apply IH; assumption.
Qed.

(** Every match of the join is a row of the frame. *)
Lemma get_sales_complete (c : conn) (s : Sales.t) (p : Products.t) :
  In s (sales c) -> In p (products c) ->
  Sales.product_id s = Products.id p ->
  In (enrich (s, p)) (run get_sales c).
Proof.
  intros Hs Hp E. rewrite run_get_sales. apply in_map.
  apply In_join. auto.
Qed.

(** ** Revenue contribution *)

Lemma string_eqb_eq (a b : string) : String.eqb a b = true <-> a = b.
Proof.
  apply String.eqb_eq.
Qed.



Lemma revenue_contribution_zero_total (sales : list SalesFrame.row) :
  (total_revenue sales == 0)%Q ->
  Forall (fun kv => snd kv = nan \/ exists s, snd kv = inf s)
         (revenue_contribution sales).
Proof.
  intros Ht. unfold revenue_contribution. apply Forall_forall.
  intros kv Hin. apply in_map_iff in Hin. destruct Hin as [kg [<- _]]. simpl.
  unfold np_truediv. apply Qeq_bool_iff in Ht. rewrite Ht. clear Ht.
  destruct (Qeq_bool _ 0); simpl; [left; reflexivity|].
  right. eexists. reflexivity.
Qed.



Lemma sum_Q_positive (l : list Q) :
  (forall q, In q l -> (0 < q)%Q) -> l <> [] -> (0 < sum_Q l)%Q.
Proof.
  induction l as [|x l IH]; intros Hpos Hne; [contradiction|].
  simpl. destruct l as [|y l].
  - simpl. rewrite Qplus_0_r. apply Hpos. left. reflexivity.
  - apply Qlt_trans with (y := x).
    + apply Hpos. left. reflexivity.
    + rewrite <- (Qplus_0_r x) at 1. apply Qplus_lt_r.
      apply IH; [|discriminate]. intros q Hq. apply Hpos. right. exact Hq.
Qed.

(** ** Restock *)

Lemma lookup_keys (f : string -> Q) (n : string) (ks : list string) :
  lookup n (map (fun k => (k, f k)) ks)
  = if existsb (String.eqb n) ks then Some (f n) else None.
Proof.
  induction ks as [|k ks IH]; simpl; [reflexivity|].
  rewrite (String.eqb_sym n k).
  destruct (String.eqb_spec k n) as [->|E]; simpl; [reflexivity | exact IH].
Qed.

Lemma sales_velocity_keys (recent : list SalesFrame.row) :
  sales_velocity recent
  = map (fun k => (k, (inject_Z (wrap64 (name_quantity k recent)) / 30)%Q))
        (group_keys SalesFrame.Name String.eqb String.leb recent).
Proof.
  unfold sales_velocity, groupby_name, groupby. rewrite map_map.
  apply map_ext. intros k. simpl. rewrite sum_int64_wrap. reflexivity.
Qed.

Lemma lookup_sales_velocity (n : string) (recent : list SalesFrame.row) :
  lookup n (sales_velocity recent) = None
  \/ lookup n (sales_velocity recent)
     = Some (inject_Z (wrap64 (name_quantity n recent)) / 30)%Q.
Proof.
  rewrite sales_velocity_keys.
  rewrite (lookup_keys
    (fun k => (inject_Z (wrap64 (name_quantity k recent)) / 30)%Q)).
  destruct (existsb _ _); auto.
Qed.

Lemma merged_velocity_zero (n : ProductsFrame.row)
      (recent : list SalesFrame.row) :
  name_quantity (ProductsFrame.Name n) recent = 0 ->
  (merged_velocity (sales_velocity recent) n == 0)%Q.
Proof.
  intros H. unfold merged_velocity.
  destruct (lookup_sales_velocity (ProductsFrame.Name n) recent) as [E|E];
    rewrite E; [reflexivity|].
  rewrite H. reflexivity.
Qed.

Lemma restock_row_zero_velocity (velocity : list (string * Q))
      (p : ProductsFrame.row) :
  (merged_velocity velocity p == 0)%Q ->
  (0 <= ProductsFrame.Quantity p ->
   (RestockFrame.Days_to_Depletion (restock_row velocity p) = nan
    \/ RestockFrame.Days_to_Depletion (restock_row velocity p) = inf false)
   /\ RestockFrame.Restock_Urgency (restock_row velocity p) = "Low")
  /\ (ProductsFrame.Quantity p < 0 ->
      RestockFrame.Days_to_Depletion (restock_row velocity p) = inf true
      /\ RestockFrame.Restock_Urgency (restock_row velocity p) = "Urgent").
Proof.
  intros Hv. unfold restock_row. simpl. unfold np_truediv.
  apply Qeq_bool_iff in Hv. rewrite Hv.
  change 0%Q with (inject_Z 0). rewrite Qltb_inject_Z.
  unfold Qeq_bool. simpl. rewrite Z.mul_1_r.
  destruct (Z.eqb_spec (ProductsFrame.Quantity p) 0) as [E|E].
  - split; intros H; [|lia]. split; [left|]; reflexivity.
  - destruct (Z.ltb_spec (ProductsFrame.Quantity p) 0) as [L|L].
    + split; intros H; [lia|]. split; reflexivity.
    + split; intros H; [|lia]. split; [right|]; reflexivity.
Qed.

(** * The claims *)

(** C1 (fails on the code): the bucket key pairs the ISO week with the
    calendar year [dt.year], not with the ISO year.  Tuesday 2024-12-31 is
    in ISO week 1 of 2025 and gets the key (2024, 1).  In a shop with one
    sale in ISO week 2024-W52 and one in ISO week 2025-W01, the later sale
    is bucketed under (2024, 1), which sorts before (2024, 52). *)
Theorem C1_dec31_bucket_key :
  isocalendar (SalesFrame.Sale_Date dec31_sale) = (2025, 1, 2)
  /\ year_week dec31_sale = (2024, 1)
  /\ map (fun s => isocalendar (Sales.sale_date s)) (sales new_year_shop)
     = [(2024, 52, 1); (2025, 1, 1)]
  /\ map bucket_key (run get_weekly_sales new_year_shop)
     = [(2024, 1); (2024, 52)]
  /\ map WeeklyFrame.Quantity_Sold (run get_weekly_sales new_year_shop)
     = [5; 3]
  /\ raised_map (fun ins => map TrendFrame.Trend (weekly_sales ins))
       (run (get_insights (noon 2025 1 20)) new_year_shop)
     = Returned ["Stable"; "Decreasing"].
Proof.
  repeat split; vm_compute; reflexivity.
Qed.



(** C9: with two or more weekly buckets the insights are returned, and
    the first row, which has no predecessor, has the trend 'Stable'. *)
Theorem C9_first_bucket_stable (now : datetime) (c : conn) :
  (2 <= List.length (run get_weekly_sales c))%nat ->
  exists ins first rest,
    run (get_insights now) c = Returned ins
    /\ weekly_sales ins = first :: rest
    /\ hd_error (run get_weekly_sales c) = Some (TrendFrame.weekly first)
    /\ TrendFrame.Trend first = "Stable".
Proof.
  intros Hlen.
  destruct (with_trend_first _ Hlen) as [x [rest [E Hhd]]].
  exists (insights_of now c), (TrendFrame.mk x "Stable"), rest.
  split; [|auto].
  apply get_insights_returns. left. apply weekly_nonempty_sales. lia.
Qed.

Lemma C9_first_bucket_stable_witness :
  (2 <= List.length (run get_weekly_sales corner_shop))%nat
  /\ exists ins first rest,
       run (get_insights corner_shop_now) corner_shop = Returned ins
       /\ weekly_sales ins = first :: rest
       /\ hd_error (run get_weekly_sales corner_shop)
          = Some (TrendFrame.weekly first)
       /\ TrendFrame.Trend first = "Stable".
Proof.
  assert (H2 : (2 <= List.length (run get_weekly_sales corner_shop))%nat)
    by (vm_compute; apply le_n).
  split; [exact H2|].
  exact (C9_first_bucket_stable corner_shop_now corner_shop H2).
Defined.

(** C3 (fails on the code): in a shop with a product and no sale, which
    the "Add Product" page alone produces, the sales frame is empty, the
    merged velocity column holds the integer 0, and [get_insights] ends in
    [ZeroDivisionError] at the days-to-depletion division instead of
    giving the urgency 'Low'.  The velocity is moreover merged on the
    product name: a product that was never sold, with quantity 3, gets the
    velocity of the other product of the same name and the urgency
    'Urgent'. *)
Theorem C3_no_sales_raises :
  replay [AddProduct "p1" "Tea" (5 # 2) 10] empty_shop = new_shop
  /\ run get_sales new_shop = []
  /\ run (get_insights corner_shop_now) new_shop = ZeroDivisionError
  /\ filter (fun s => String.eqb (Sales.product_id s) "p1")
            (sales namesake_shop) = []
  /\ raised_map
       (fun ins =>
          map (fun r => (ProductsFrame.ID (RestockFrame.product r),
                         ProductsFrame.Quantity (RestockFrame.product r),
                         RestockFrame.Restock_Urgency r))
              (restock ins))
       (run (get_insights corner_shop_now) namesake_shop)
     = Returned [("p1", 3, "Urgent"); ("p2", 40, "Low")].
Proof.
  repeat split; vm_compute; reflexivity.
Qed.





(** C5: a sale whose product identifier matches no product leaves no row
    in the aggregator output: the output is the one obtained without that
    sale, and (sale identifiers being the primary key) no row carries its
    identifier.  Running the aggregation again returns the same frame and
    leaves the store as it was. *)
Theorem C5_orphan_sale_dropped (c : conn) (s : Sales.t)
        (l1 l2 : list Sales.t) :
  sales c = (l1 ++ s :: l2)%list ->
  (forall p, In p (products c) -> Products.id p <> Sales.product_id s) ->
  run get_sales c = run get_sales (mkConn (products c) (l1 ++ l2)%list)
  /\ (NoDup (map Sales.id (sales c)) ->
      ~ In (Sales.id s) (map SalesFrame.Sale_ID (run get_sales c)))
  /\ run (_ <- get_sales ;; get_sales) c = run get_sales c
  /\ snd (get_sales c) = c.
Proof.
  intros Hs Horphan. split; [|split; [|split; reflexivity]].
  - rewrite !run_get_sales. simpl. rewrite Hs.
    change (s :: l2) with ([s] ++ l2)%list.
    rewrite !join_app, (join_orphan _ _ Horphan). reflexivity.
  - intros Hnd Hin. rewrite run_get_sales, map_map in Hin.
    apply in_map_iff in Hin. destruct Hin as [[s' p] [Hid Hj]].
    simpl in Hid. apply In_join in Hj. destruct Hj as [Hs' [Hp E]].
    assert (Hin_s : In s (sales c)).
    { rewrite Hs. apply in_or_app. right. left. reflexivity. }
    pose proof (NoDup_map_inj Sales.id _ s' s Hnd Hs' Hin_s Hid) as ->.
    apply (Horphan p Hp). symmetry. exact E.
Qed.

Lemma C5_orphan_sale_dropped_witness :
  sales corner_shop
  = ([Sales.mk "s1" "p1" 3 (noon 2025 1 6)]
     ++ Sales.mk "s2" "p9" 7 (noon 2025 1 7)
     :: [Sales.mk "s3" "p2" 2 (noon 2025 1 14);
         Sales.mk "s4" "p1" 2 (noon 2025 1 14)])%list
  /\ (forall p, In p (products corner_shop) -> Products.id p <> "p9")
  /\ NoDup (map Sales.id (sales corner_shop))
  /\ ~ In "s2" (map SalesFrame.Sale_ID (run get_sales corner_shop)).
Proof.
  assert (Hs : sales corner_shop
               = ([Sales.mk "s1" "p1" 3 (noon 2025 1 6)]
                  ++ Sales.mk "s2" "p9" 7 (noon 2025 1 7)
                  :: [Sales.mk "s3" "p2" 2 (noon 2025 1 14);
                      Sales.mk "s4" "p1" 2 (noon 2025 1 14)])%list)
    by reflexivity.
  assert (Ho : forall p, In p (products corner_shop) ->
                         Products.id p
                         <> Sales.product_id
                              (Sales.mk "s2" "p9" 7 (noon 2025 1 7))).
  { intros p [<-|[<-|[<-|[]]]]; simpl; discriminate. }
  assert (Hnd : NoDup (map Sales.id (sales corner_shop))).
  { simpl. repeat constructor; simpl; intuition discriminate. }
  split; [exact Hs|]. split; [exact Ho|]. split; [exact Hnd|].
  exact (proj1 (proj2 (C5_orphan_sale_dropped corner_shop _ _ _ Hs Ho)) Hnd).
Defined.

Lemma year_week_is_iso (sales : list SalesFrame.row) :
  (forall r, In r sales ->
             iso_year (SalesFrame.Sale_Date r) = year (SalesFrame.Sale_Date r)) ->
  forall r, In r sales -> year_week r = iso_year_week r.
Proof.
  intros H r Hr. unfold year_week, iso_year_week, sale_year, sale_week.
  rewrite (H r Hr). reflexivity.
Qed.

Lemma weekly_rollup_bucket (sales : list SalesFrame.row)
      (w : WeeklyFrame.row) :
  In w (weekly_rollup sales) ->
  In (bucket_key w) (map year_week sales)
  /\ WeeklyFrame.Quantity_Sold w
     = wrap64 (sum_Z (map SalesFrame.Quantity_Sold
                        (filter (fun r => yw_eqb (year_week r) (bucket_key w))
                                sales)))
  /\ WeeklyFrame.Revenue w
     = sum_Q (map SalesFrame.Revenue
                (filter (fun r => yw_eqb (year_week r) (bucket_key w))
                        sales)).
Proof.
  rewrite weekly_rollup_buckets. unfold groupby_year_week, groupby.
  rewrite map_map, in_map_iff. intros [k [<- Hk]].
  apply (In_group_keys year_week yw_eqb yw_leb yw_eqb_eq) in Hk.
  destruct k as [y wk]. simpl. split; [exact Hk|].
  split; [apply sum_int64_wrap | reflexivity].
Qed.

(** C6 (as stated, fails on two inputs).  Two sales of 2^62 units in one
    week give a bucket total of -2^63, not the 2^63 units sold.  And, by
    the key of C1, the buckets of the new-year shop come out with the
    ISO week 2025-W01 before 2024-W52, and the two sales of ISO week
    2020-W53 come out in two buckets. *)
Lemma C6_totals_wrap_keys_not_iso :
  (map WeeklyFrame.Quantity_Sold (weekly_rollup bulk_sales)
   = [-9223372036854775808]
   /\ sum_Z (map SalesFrame.Quantity_Sold bulk_sales)
      = 9223372036854775808)
  /\ map (fun w => map iso_year_week
                       (sales_of_bucket w (run get_sales new_year_shop)))
         (run get_weekly_sales new_year_shop)
     = [[(2025, 1)]; [(2024, 52)]]
  /\ map (fun w => map iso_year_week (sales_of_bucket w year_end_2020_sales))
         (weekly_rollup year_end_2020_sales)
     = [[(2020, 53)]; [(2020, 53)]].
Proof.
  repeat split; vm_compute; reflexivity.
Qed.

(** C6 (amended): an empty input gives an empty output.  When the ISO
    year of every sale is its calendar year, the rollup has one bucket for
    each ISO (year, week) in which a sale falls, in strictly ascending
    order of that key, hence without duplicates, and the quantity of a
    bucket is the int64 sum over the sales of that ISO week.  The bucket
    quantities add up to the quantity over all sales modulo 2^64, and
    exactly when no quantity is negative and the total is below 2^63. *)
Theorem C6_weekly_rollup_sorted_total (sales : list SalesFrame.row) :
  weekly_rollup [] = []
  /\ (forall c : conn,
        run get_weekly_sales c = weekly_rollup (run get_sales c))
  /\ ((forall r, In r sales ->
                 iso_year (SalesFrame.Sale_Date r)
                 = year (SalesFrame.Sale_Date r)) ->
      StronglySorted yw_lt (map bucket_key (weekly_rollup sales))
      /\ NoDup (map bucket_key (weekly_rollup sales))
      /\ (forall k : Z * Z,
            In k (map bucket_key (weekly_rollup sales))
            <-> exists r, In r sales /\ iso_year_week r = k)
      /\ (forall w : WeeklyFrame.row,
            In w (weekly_rollup sales) ->
            WeeklyFrame.Quantity_Sold w
            = wrap64 (sum_Z (map SalesFrame.Quantity_Sold
                               (filter (fun r => yw_eqb (iso_year_week r)
                                                        (bucket_key w))
                                       sales)))))
  /\ wrap64 (sum_Z (map WeeklyFrame.Quantity_Sold (weekly_rollup sales)))
     = wrap64 (sum_Z (map SalesFrame.Quantity_Sold sales))
  /\ ((forall r, In r sales -> 0 <= SalesFrame.Quantity_Sold r) ->
      sum_Z (map SalesFrame.Quantity_Sold sales) < 9223372036854775808 ->
      sum_Z (map WeeklyFrame.Quantity_Sold (weekly_rollup sales))
      = sum_Z (map SalesFrame.Quantity_Sold sales)).
Proof.
  split; [reflexivity|]. split; [intros c; reflexivity|].
  split; [|split; [apply weekly_rollup_quantity_wrapped
                  | apply weekly_rollup_quantity]].
  intros Hiso. pose proof (year_week_is_iso sales Hiso) as Hkey.
  split; [apply weekly_rollup_sorted|]. split; [|split].
  - apply StronglySorted_yw_lt_NoDup, weekly_rollup_sorted.
  - intros k. rewrite weekly_rollup_keys.
    rewrite (In_group_keys year_week yw_eqb yw_leb yw_eqb_eq).
    rewrite in_map_iff. split; intros [r [H1 H2]]; exists r.
    + rewrite <- (Hkey r H2). auto.
    + rewrite (Hkey r H1). auto.
  - intros w Hw. destruct (weekly_rollup_bucket _ _ Hw) as [_ [Eq _]].
    rewrite Eq. do 3 f_equal. apply filter_ext_in.
    intros r Hr. rewrite (Hkey r Hr). reflexivity.
Qed.

Lemma C6_weekly_rollup_sorted_total_witness :
  (forall r, In r (run get_sales corner_shop) ->
             iso_year (SalesFrame.Sale_Date r)
             = year (SalesFrame.Sale_Date r))
  /\ (forall r, In r (run get_sales corner_shop) ->
                0 <= SalesFrame.Quantity_Sold r)
  /\ sum_Z (map SalesFrame.Quantity_Sold (run get_sales corner_shop))
     < 9223372036854775808
  /\ map bucket_key (weekly_rollup (run get_sales corner_shop))
     = [(2025, 2); (2025, 3)]
  /\ StronglySorted yw_lt
       (map bucket_key (weekly_rollup (run get_sales corner_shop)))
  /\ sum_Z (map WeeklyFrame.Quantity_Sold
              (weekly_rollup (run get_sales corner_shop)))
     = sum_Z (map SalesFrame.Quantity_Sold (run get_sales corner_shop)).
Proof.
  assert (Hiso : forall r, In r (run get_sales corner_shop) ->
                           iso_year (SalesFrame.Sale_Date r)
                           = year (SalesFrame.Sale_Date r)).
  { intros r [<-|[<-|[<-|[]]]]; vm_compute; reflexivity. }
  assert (Hpos : forall r, In r (run get_sales corner_shop) ->
                           0 <= SalesFrame.Quantity_Sold r).
  { intros r [<-|[<-|[<-|[]]]]; vm_compute; discriminate. }
  assert (Hmax : sum_Z (map SalesFrame.Quantity_Sold
                          (run get_sales corner_shop))
                 < 9223372036854775808) by (vm_compute; reflexivity).
  split; [exact Hiso|]. split; [exact Hpos|]. split; [exact Hmax|].
  split; [reflexivity|]. split.
  - exact (proj1 (proj1 (proj2 (proj2 (C6_weekly_rollup_sorted_total
                                         (run get_sales corner_shop))))
                    Hiso)).
  - exact (proj2 (proj2 (proj2 (proj2 (C6_weekly_rollup_sorted_total
                                         (run get_sales corner_shop)))))
             Hpos Hmax).
Defined.

(** C7: the revenue of every enriched sale is its quantity sold times its
    price column, and that price is the one the products table holds, when
    the frame is built, for the product the sale refers to. *)
Theorem C7_revenue_quantity_times_price (c : conn) (r : SalesFrame.row) :
  In r (run get_sales c) ->
  SalesFrame.Revenue r
  = (inject_Z (SalesFrame.Quantity_Sold r) * SalesFrame.Price r)%Q
  /\ exists (s : Sales.t) (p : Products.t),
      In s (sales c) /\ In p (products c)
      /\ Sales.product_id s = Products.id p
      /\ SalesFrame.Sale_ID r = Sales.id s
      /\ SalesFrame.Quantity_Sold r = Sales.quantity_sold s
      /\ SalesFrame.Price r = Products.price p
      /\ SalesFrame.Revenue r
         = (inject_Z (Sales.quantity_sold s) * Products.price p)%Q
      /\ (NoDup (map Products.id (products c)) ->
          forall p', In p' (products c) ->
                     Products.id p' = Sales.product_id s -> p' = p).
Proof.
  rewrite run_get_sales. intros Hin. apply in_map_iff in Hin.
  destruct Hin as [[s p] [<- Hj]]. apply In_join in Hj.
  destruct Hj as [Hs [Hp E]]. simpl. split; [reflexivity|].
  exists s, p. repeat (split; [solve [auto]|]).
  intros Hnd p' Hp' E'.
  apply (NoDup_map_inj Products.id (products c)); congruence.
Qed.

Lemma C7_revenue_quantity_times_price_witness :
  In (nth 0 (run get_sales corner_shop) no_sale_row)
     (run get_sales corner_shop)
  /\ SalesFrame.Revenue (nth 0 (run get_sales corner_shop) no_sale_row)
     = (inject_Z 3 * (5 # 2))%Q.
Proof.
  assert (Hin : In (nth 0 (run get_sales corner_shop) no_sale_row)
                   (run get_sales corner_shop)) by (vm_compute; tauto).
  split; [exact Hin|].
  exact (proj1 (C7_revenue_quantity_times_price corner_shop _ Hin)).
Defined.

(** C8: the stock status of every product row is determined by its
    quantity alone: 0 gives 'Out of Stock', a quantity strictly between 0
    and 5 gives 'Low Stock', 5 or more gives 'In Stock'; in particular 4 is
    'Low Stock' and 5 is 'In Stock'. *)
Theorem C8_stock_status_thresholds :
  (forall (c : conn) (r : ProductsFrame.row),
     In r (run get_products c) ->
     ProductsFrame.Stock_Status r = stock_status (ProductsFrame.Quantity r)
     /\ (ProductsFrame.Quantity r = 0 ->
         ProductsFrame.Stock_Status r = "Out of Stock")
     /\ (0 < ProductsFrame.Quantity r < 5 ->
         ProductsFrame.Stock_Status r = "Low Stock")
     /\ (5 <= ProductsFrame.Quantity r ->
         ProductsFrame.Stock_Status r = "In Stock"))
  /\ stock_status 0 = "Out of Stock"
  /\ stock_status 4 = "Low Stock"
  /\ stock_status 5 = "In Stock".
Proof.
  split; [|repeat split; reflexivity].
  intros c r Hin. destruct (get_products_rows c r Hin) as [E _].
  rewrite E. split; [reflexivity|].
  destruct (stock_status_cases (ProductsFrame.Quantity r)) as [H0 [H1 H2]].
  repeat split; intros; [apply H0 | apply H1 | apply H2]; lia.
Qed.

Lemma C8_stock_status_thresholds_witness :
  map (fun r => (ProductsFrame.Quantity r, ProductsFrame.Stock_Status r))
      (run get_products corner_shop)
  = [(4, "Low Stock"); (0, "Out of Stock"); (5, "In Stock")]
  /\ (In (nth 0 (run get_products corner_shop) no_product_row)
         (run get_products corner_shop)
      /\ 0 < ProductsFrame.Quantity
               (nth 0 (run get_products corner_shop) no_product_row) < 5
      /\ ProductsFrame.Stock_Status
           (nth 0 (run get_products corner_shop) no_product_row)
         = "Low Stock").
Proof.
  assert (Hin : In (nth 0 (run get_products corner_shop) no_product_row)
                   (run get_products corner_shop)) by (vm_compute; tauto).
  assert (Hq : 0 < ProductsFrame.Quantity
                     (nth 0 (run get_products corner_shop) no_product_row)
               < 5) by (vm_compute; split; reflexivity).
  split; [reflexivity|]. split; [exact Hin|]. split; [exact Hq|].
  exact (proj1 (proj2 (proj2 (proj1 C8_stock_status_thresholds
           corner_shop _ Hin))) Hq).
Defined.

(** C10: the classifier is total on the integers: a negative quantity is
    'Low Stock'; 'Out of Stock' is given at 0 only, and every other
    quantity below 5 is 'Low Stock'. *)
Theorem C10_negative_quantity_low_stock (c : conn) (r : ProductsFrame.row) :
  In r (run get_products c) ->
  (ProductsFrame.Quantity r < 0 ->
   ProductsFrame.Stock_Status r = "Low Stock")
  /\ (ProductsFrame.Stock_Status r = "Out of Stock"
      <-> ProductsFrame.Quantity r = 0)
  /\ (ProductsFrame.Quantity r < 5 -> ProductsFrame.Quantity r <> 0 ->
      ProductsFrame.Stock_Status r = "Low Stock").
Proof.
  intros Hin. destruct (get_products_rows c r Hin) as [E _]. rewrite E.
  destruct (stock_status_cases (ProductsFrame.Quantity r)) as [H0 [H1 H2]].
  split; [intros H; apply H1; lia|]. split; [|intros; apply H1; assumption].
  split; [|exact H0].
  intros Hout. destruct (Z.eq_dec (ProductsFrame.Quantity r) 0) as [Z0|NZ];
    [exact Z0|].
  destruct (Z_lt_le_dec (ProductsFrame.Quantity r) 5) as [L|L].
  - rewrite (H1 NZ L) in Hout. discriminate.
  - rewrite (H2 L) in Hout. discriminate.
Qed.

Lemma C10_negative_quantity_low_stock_witness :
  In (nth 0 (run get_products oversold_shop) no_product_row)
     (run get_products oversold_shop)
  /\ ProductsFrame.Quantity
       (nth 0 (run get_products oversold_shop) no_product_row) < 0
  /\ ProductsFrame.Stock_Status
       (nth 0 (run get_products oversold_shop) no_product_row)
     = "Low Stock".
Proof.
  assert (Hin : In (nth 0 (run get_products oversold_shop) no_product_row)
                   (run get_products oversold_shop)) by (vm_compute; tauto).
  assert (Hq : ProductsFrame.Quantity
                 (nth 0 (run get_products oversold_shop) no_product_row) < 0)
    by (vm_compute; reflexivity).
  split; [exact Hin|]. split; [exact Hq|].
  exact (proj1 (C10_negative_quantity_low_stock oversold_shop _ Hin) Hq).
Defined.

(** * Further properties of the weekly rollup *)

Lemma fold_min_datetime (l : list datetime) (t : datetime) :
  (fold_left (fun m u => if datetime_leb m u then m else u) l t = t
   \/ In (fold_left (fun m u => if datetime_leb m u then m else u) l t) l)
  /\ (forall u, In u (t :: l) ->
      to_microseconds
        (fold_left (fun m u => if datetime_leb m u then m else u) l t)
      <= to_microseconds u).
Proof.
  revert t. induction l as [|a l IH]; intros t; simpl.
  - split; [left; reflexivity|]. intros u [<-|[]]. lia.
  - destruct (IH (if datetime_leb t a then t else a)) as [Hin Hmin].
    unfold datetime_leb in *.
    destruct (Z.leb_spec (to_microseconds t) (to_microseconds a)) as [L|L].
    + split.
      * destruct Hin as [E|Hin]; [left; exact E | right; right; exact Hin].
      * intros u [<-|[<-|Hu]].
        -- apply Hmin. left. reflexivity.
        -- specialize (Hmin t (or_introl eq_refl)). lia.
        -- apply Hmin. right. exact Hu.
    + split.
      * destruct Hin as [E|Hin]; [right; left; symmetry; exact E
                                 | right; right; exact Hin].
      * intros u [<-|[<-|Hu]].
        -- specialize (Hmin a (or_introl eq_refl)). lia.
        -- apply Hmin. left. reflexivity.
        -- apply Hmin. right. exact Hu.
Qed.

Lemma min_datetime_spec (l : list datetime) :
  l <> [] ->
  exists m, min_datetime l = Some m /\ In m l
            /\ forall u, In u l -> to_microseconds m <= to_microseconds u.
Proof.
  destruct l as [|t l]; [congruence|]. intros _. simpl.
  destruct (fold_min_datetime l t) as [Hin Hmin].
  eexists. split; [reflexivity|]. split; [|exact Hmin].
  destruct Hin as [E|Hin]; [left; symmetry; exact E | right; exact Hin].
Qed.

(** A row of the rollup is built from the sales that carry its key. *)
Lemma weekly_rollup_row (sales : list SalesFrame.row) (w : WeeklyFrame.row) :
  In w (weekly_rollup sales) ->
  In (bucket_key w) (map year_week sales)
  /\ w = bucket_of (bucket_key w,
                    filter (fun r => yw_eqb (year_week r) (bucket_key w))
                           sales).
Proof.
  rewrite weekly_rollup_buckets. unfold groupby_year_week, groupby.
  rewrite map_map, in_map_iff. intros [k [<- Hk]].
  apply (In_group_keys year_week yw_eqb yw_leb yw_eqb_eq) in Hk.
  destruct k as [y wk]. simpl. split; [exact Hk | reflexivity].
Qed.

Lemma in_filter_year_week (sales : list SalesFrame.row) (k : Z * Z)
      (r : SalesFrame.row) :
  In r (filter (fun r => yw_eqb (year_week r) k) sales)
  <-> In r sales /\ year_week r = k.
Proof.
  rewrite filter_In, yw_eqb_eq. reflexivity.
Qed.

(** X1: the revenue totals of the weekly buckets add up to the total
    revenue of the aggregated sales. *)
Theorem X1_weekly_revenue_total (c : conn) :
  (sum_Q (map WeeklyFrame.Revenue (run get_weekly_sales c))
   == total_revenue (run get_sales c))%Q.
Proof.
  rewrite run_get_weekly_sales. apply weekly_rollup_revenue.
Qed.

(** X2: the 'Week Start' label of a bucket is the date of the earliest
    sale of that bucket, not the Monday of the week. *)
Theorem X2_week_start_is_earliest_sale (c : conn) (w : WeeklyFrame.row) :
  In w (run get_weekly_sales c) ->
  exists r : SalesFrame.row,
    In r (run get_sales c)
    /\ year_week r = bucket_key w
    /\ WeeklyFrame.Week_Start w
       = Some (strftime_ymd (SalesFrame.Sale_Date r))
    /\ forall r', In r' (run get_sales c) ->
                  year_week r' = bucket_key w ->
                  to_microseconds (SalesFrame.Sale_Date r)
                  <= to_microseconds (SalesFrame.Sale_Date r').
Proof.
  rewrite run_get_weekly_sales. intros Hw.
  destruct (weekly_rollup_row _ _ Hw) as [Hk Ew].
  set (g := filter (fun r => yw_eqb (year_week r) (bucket_key w))
                   (run get_sales c)) in *.
  assert (Hne : map SalesFrame.Sale_Date g <> []).
  { apply in_map_iff in Hk. destruct Hk as [r [Hr Hin]].
    assert (Hg : In r g) by (apply in_filter_year_week; auto).
    destruct g; [destruct Hg | discriminate]. }
  destruct (min_datetime_spec _ Hne) as [m [Em [Hm Hmin]]].
  apply in_map_iff in Hm. destruct Hm as [r [<- Hr]].
  exists r. apply in_filter_year_week in Hr. destruct Hr as [Hr Hkey].
  split; [exact Hr|]. split; [exact Hkey|]. split.
  - rewrite Ew. unfold bucket_of. simpl. fold g. rewrite Em. reflexivity.
  - intros r' Hr' Hkey'. apply Hmin. apply in_map.
    apply in_filter_year_week. auto.
Qed.

Lemma X2_week_start_is_earliest_sale_witness :
  In (nth 1 (run get_weekly_sales corner_shop) no_weekly_row)
     (run get_weekly_sales corner_shop)
  /\ exists r : SalesFrame.row,
       In r (run get_sales corner_shop)
       /\ year_week r
          = bucket_key (nth 1 (run get_weekly_sales corner_shop)
                            no_weekly_row)
       /\ WeeklyFrame.Week_Start
            (nth 1 (run get_weekly_sales corner_shop) no_weekly_row)
          = Some (strftime_ymd (SalesFrame.Sale_Date r))
       /\ forall r', In r' (run get_sales corner_shop) ->
                     year_week r'
                     = bucket_key (nth 1 (run get_weekly_sales corner_shop)
                                       no_weekly_row) ->
                     to_microseconds (SalesFrame.Sale_Date r)
                     <= to_microseconds (SalesFrame.Sale_Date r').
Proof.
  assert (Hin : In (nth 1 (run get_weekly_sales corner_shop) no_weekly_row)
                   (run get_weekly_sales corner_shop))
    by (vm_compute; tauto).
  split; [exact Hin|].
  exact (X2_week_start_is_earliest_sale corner_shop _ Hin).
Defined.

(** X3: the rollup is strictly ascending in the pair (calendar year,
    ISO week) and has a bucket for exactly the pairs taken by the
    timestamp of some sale; no bucket is without a sale; the quantity of
    a bucket is the int64 (wrap-around) sum, and its revenue the sum, over
    the sales whose timestamp has the calendar year and the ISO week of
    the bucket. *)
Theorem X3_buckets_cover_sales (sales : list SalesFrame.row) :
  StronglySorted yw_lt (map bucket_key (weekly_rollup sales))
  /\ (forall k : Z * Z,
        In k (map bucket_key (weekly_rollup sales))
        <-> exists r, In r sales
                      /\ k = (year (SalesFrame.Sale_Date r),
                              iso_week (SalesFrame.Sale_Date r)))
  /\ (forall w : WeeklyFrame.row,
        In w (weekly_rollup sales) ->
        sales_of_bucket w sales <> []
        /\ WeeklyFrame.Quantity_Sold w
           = wrap64 (sum_Z (map SalesFrame.Quantity_Sold
                              (sales_of_bucket w sales)))
        /\ -9223372036854775808 <= WeeklyFrame.Quantity_Sold w
           < 9223372036854775808
        /\ WeeklyFrame.Revenue w
           = sum_Q (map SalesFrame.Revenue (sales_of_bucket w sales))).
Proof.
  split; [apply weekly_rollup_sorted|]. split.
  - intros k. rewrite weekly_rollup_keys.
    rewrite (In_group_keys year_week yw_eqb yw_leb yw_eqb_eq).
    rewrite in_map_iff. split; intros [r [H1 H2]]; exists r.
    + split; [exact H2|]. symmetry. exact H1.
    + split; [|exact H1]. symmetry. exact H2.
  - intros w Hw. destruct (weekly_rollup_bucket _ _ Hw) as [Hk [Eq Er]].
    change (filter (fun r => yw_eqb (year_week r) (bucket_key w)) sales)
      with (sales_of_bucket w sales) in Eq, Er.
    split; [|split; [exact Eq | split; [|exact Er]]].
    + apply in_map_iff in Hk. destruct Hk as [r [Hr Hin]].
      assert (Hg : In r (filter (fun r0 => yw_eqb (year_week r0)
                                                   (bucket_key w)) sales)).
      { apply in_filter_year_week. auto. }
      change (In r (sales_of_bucket w sales)) in Hg.
      intros E. rewrite E in Hg. exact Hg.
    + rewrite Eq. apply wrap64_range.
Qed.

Lemma X3_buckets_cover_sales_witness :
  In (nth 1 (weekly_rollup (run get_sales corner_shop)) no_weekly_row)
     (weekly_rollup (run get_sales corner_shop))
  /\ map SalesFrame.Sale_ID
       (sales_of_bucket
          (nth 1 (weekly_rollup (run get_sales corner_shop)) no_weekly_row)
          (run get_sales corner_shop))
     = ["s3"; "s4"]
  /\ WeeklyFrame.Quantity_Sold
       (nth 1 (weekly_rollup (run get_sales corner_shop)) no_weekly_row)
     = wrap64 (sum_Z (map SalesFrame.Quantity_Sold
                        (sales_of_bucket
                           (nth 1 (weekly_rollup (run get_sales corner_shop))
                                no_weekly_row)
                           (run get_sales corner_shop)))).
Proof.
  assert (Hin : In (nth 1 (weekly_rollup (run get_sales corner_shop))
                        no_weekly_row)
                   (weekly_rollup (run get_sales corner_shop)))
    by (vm_compute; tauto).
  split; [exact Hin|]. split; [reflexivity|].
  exact (proj1 (proj2 (proj2 (proj2 (X3_buckets_cover_sales
                                       (run get_sales corner_shop))) _ Hin))).
Defined.

(** * Further properties of the insights *)

Lemma stock_status_in_stock (q : Z) : stock_status q = "In Stock" <-> 5 <= q.
Proof.
  destruct (stock_status_cases q) as [H0 [H1 H2]]. split.
  - intros E. destruct (Z.eq_dec q 0) as [Z0|NZ].
    + rewrite (H0 Z0) in E. discriminate.
    + destruct (Z_lt_le_dec q 5) as [L|L]; [|exact L].
      rewrite (H1 NZ L) in E. discriminate.
  - exact H2.
Qed.

Lemma in_low_stock_of (products : list ProductsFrame.row) (n : string)
      (q : Z) (st : string) :
  In (n, q, st) (low_stock_of products)
  <-> exists r, In r products /\ ProductsFrame.Quantity r < 5
                /\ ProductsFrame.Name r = n /\ ProductsFrame.Quantity r = q
                /\ ProductsFrame.Stock_Status r = st.
Proof.
  unfold low_stock_of. rewrite in_map_iff. split.
  - intros [r [E Hr]]. apply filter_In in Hr. destruct Hr as [Hr Hq].
    apply Z.ltb_lt in Hq. inversion E; subst. exists r. auto.
  - intros [r [Hr [Hq [<- [<- <-]]]]]. exists r. split; [reflexivity|].
    apply filter_In. split; [exact Hr|]. apply Z.ltb_lt. exact Hq.
Qed.

(** X4: when [get_insights] returns, its low-stock list holds exactly
    the products whose stock status is not 'In Stock': those with a
    quantity below 5, out-of-stock and negative ones included. *)
Theorem X4_low_stock_is_not_in_stock (now : datetime) (c : conn)
        (ins : insights) :
  run (get_insights now) c = Returned ins ->
  (forall r : ProductsFrame.row,
     In r (run get_products c) ->
     (In (ProductsFrame.Name r, ProductsFrame.Quantity r,
          ProductsFrame.Stock_Status r)
         (low_stock ins)
      <-> ProductsFrame.Stock_Status r <> "In Stock"))
  /\ (forall (n : string) (q : Z) (st : string),
        In (n, q, st) (low_stock ins) ->
        q < 5 /\ st = stock_status q /\ st <> "In Stock").
Proof.
  intros Hret. destruct (get_insights_returned _ _ _ Hret) as [-> _].
  simpl low_stock. split.
  - intros r Hr. destruct (get_products_rows c r Hr) as [E _].
    rewrite in_low_stock_of, E, stock_status_in_stock. split.
    + intros [r' [_ [Hq [_ [Eq _]]]]]. lia.
    + intros Hq. exists r. repeat split; auto. lia.
  - intros n q st Hin. apply in_low_stock_of in Hin.
    destruct Hin as [r [Hr [Hq [_ [<- <-]]]]].
    destruct (get_products_rows c r Hr) as [E _]. rewrite E.
    split; [exact Hq|]. split; [reflexivity|].
    rewrite stock_status_in_stock. lia.
Qed.

Lemma X4_low_stock_is_not_in_stock_witness :
  run (get_insights corner_shop_now) corner_shop
  = Returned (insights_of corner_shop_now corner_shop)
  /\ In (nth 1 (run get_products corner_shop) no_product_row)
        (run get_products corner_shop)
  /\ ProductsFrame.Stock_Status
       (nth 1 (run get_products corner_shop) no_product_row) <> "In Stock"
  /\ In ("Milk", 0, "Out of Stock")
        (low_stock (insights_of corner_shop_now corner_shop)).
Proof.
  assert (Hret : run (get_insights corner_shop_now) corner_shop
                 = Returned (insights_of corner_shop_now corner_shop))
    by reflexivity.
  assert (Hin : In (nth 1 (run get_products corner_shop) no_product_row)
                   (run get_products corner_shop)) by (vm_compute; tauto).
  assert (Hst : ProductsFrame.Stock_Status
                  (nth 1 (run get_products corner_shop) no_product_row)
                <> "In Stock") by (vm_compute; discriminate).
  split; [exact Hret|]. split; [exact Hin|]. split; [exact Hst|].
  exact (proj2 (proj1 (X4_low_stock_is_not_in_stock corner_shop_now
                         corner_shop _ Hret) _ Hin) Hst).
Defined.

Lemma Qltb_true (a b : Q) : Qltb a b = true <-> (a < b)%Q.
Proof.
  unfold Qltb. rewrite negb_true_iff. split.
  - intros E. apply Qnot_le_lt. intros L.
    apply Qle_bool_iff in L. congruence.
  - intros L. destruct (Qle_bool b a) eqn:E; [|reflexivity].
    apply Qle_bool_iff in E. exfalso. apply (Qlt_not_le _ _ L). exact E.
Qed.

Lemma Qltb_false (a b : Q) : Qltb a b = false <-> (b <= a)%Q.
Proof.
  unfold Qltb. rewrite negb_false_iff. apply Qle_bool_iff.
Qed.

Lemma np_truediv_finite (a b : Q) :
  (0 < b)%Q -> np_truediv a b = fin (a / b).
Proof.
  intros Hb. unfold np_truediv. destruct (Qeq_bool b 0) eqn:E.
  - apply Qeq_bool_iff in E. rewrite E in Hb.
    exfalso. apply (Qlt_irrefl 0). exact Hb.
  - reflexivity.
Qed.

Lemma urgency_of_quotient (a b : Q) :
  (0 < b)%Q ->
  ((a < 7 * b)%Q -> urgency_of (fin (a / b)) = "Urgent")
  /\ ((7 * b <= a)%Q -> (a < 14 * b)%Q ->
      urgency_of (fin (a / b)) = "Moderate")
  /\ ((14 * b <= a)%Q -> urgency_of (fin (a / b)) = "Low").
Proof.
  intros Hb. unfold urgency_of, np_lt. repeat split.
  - intros H. apply (Qlt_shift_div_r _ _ _ Hb) in H.
    apply Qltb_true in H. rewrite H. reflexivity.
  - intros H1 H2. apply (Qle_shift_div_l _ _ _ Hb) in H1.
    apply (Qlt_shift_div_r _ _ _ Hb) in H2.
    apply Qltb_false in H1. apply Qltb_true in H2.
    rewrite H1, H2. reflexivity.
  - intros H. apply (Qle_shift_div_l _ _ _ Hb) in H.
    assert (H7 : (7 <= a / b)%Q).
    { eapply Qle_trans; [|exact H]. discriminate. }
    apply Qltb_false in H, H7. rewrite H, H7. reflexivity.
Qed.

(** X5: for a row of the returned restock frame with positive velocity
    the days to depletion are the finite quotient quantity / velocity (in
    exact arithmetic), and the urgency is 'Urgent' below 7 days,
    'Moderate' from 7 to below 14 days and 'Low' from 14 days on. *)
Theorem X5_restock_urgency_thresholds (now : datetime) (c : conn)
        (ins : insights) (row : RestockFrame.row) :
  run (get_insights now) c = Returned ins ->
  In row (restock ins) ->
  (0 < RestockFrame.Quantity_Sold row)%Q ->
  RestockFrame.Days_to_Depletion row
  = fin (inject_Z (ProductsFrame.Quantity (RestockFrame.product row))
         / RestockFrame.Quantity_Sold row)
  /\ ((inject_Z (ProductsFrame.Quantity (RestockFrame.product row))
       < 7 * RestockFrame.Quantity_Sold row)%Q ->
      RestockFrame.Restock_Urgency row = "Urgent")
  /\ ((7 * RestockFrame.Quantity_Sold row
       <= inject_Z (ProductsFrame.Quantity (RestockFrame.product row)))%Q ->
      (inject_Z (ProductsFrame.Quantity (RestockFrame.product row))
       < 14 * RestockFrame.Quantity_Sold row)%Q ->
      RestockFrame.Restock_Urgency row = "Moderate")
  /\ ((14 * RestockFrame.Quantity_Sold row
       <= inject_Z (ProductsFrame.Quantity (RestockFrame.product row)))%Q ->
      RestockFrame.Restock_Urgency row = "Low").
Proof.
  intros Hret. destruct (get_insights_returned _ _ _ Hret) as [-> _].
  simpl restock.
  intros Hin. apply in_map_iff in Hin. destruct Hin as [p [<- _]].
  unfold restock_row. simpl. intros Hv.
  rewrite (np_truediv_finite _ _ Hv). split; [reflexivity|].
  apply urgency_of_quotient. exact Hv.
Qed.

Lemma X5_restock_urgency_thresholds_witness :
  run (get_insights corner_shop_now) corner_shop
  = Returned (insights_of corner_shop_now corner_shop)
  /\ In (nth 0 (restock (insights_of corner_shop_now corner_shop))
             no_restock_row)
        (restock (insights_of corner_shop_now corner_shop))
  /\ (0 < RestockFrame.Quantity_Sold
            (nth 0 (restock (insights_of corner_shop_now corner_shop))
                 no_restock_row))%Q
  /\ RestockFrame.Restock_Urgency
       (nth 0 (restock (insights_of corner_shop_now corner_shop))
            no_restock_row)
     = "Low".
Proof.
  assert (Hret : run (get_insights corner_shop_now) corner_shop
                 = Returned (insights_of corner_shop_now corner_shop))
    by reflexivity.
  assert (Hin : In (nth 0 (restock (insights_of corner_shop_now corner_shop))
                        no_restock_row)
                   (restock (insights_of corner_shop_now corner_shop)))
    by (vm_compute; tauto).
  assert (Hv : (0 < RestockFrame.Quantity_Sold
                      (nth 0 (restock (insights_of corner_shop_now
                                         corner_shop)) no_restock_row))%Q)
    by (vm_compute; reflexivity).
  split; [exact Hret|]. split; [exact Hin|]. split; [exact Hv|].
  refine (proj2 (proj2 (proj2 (X5_restock_urgency_thresholds corner_shop_now
            corner_shop _ _ Hret Hin Hv))) _).
  vm_compute. discriminate.
Defined.

Lemma filter_nothing {A : Type} (f : A -> bool) (l : list A) :
  (forall x, In x l -> f x = false) -> filter f l = [].
Proof.
  induction l as [|a l IH]; simpl; intros H; [reflexivity|].
  rewrite (H a (or_introl eq_refl)). apply IH. auto.
Qed.

Lemma merged_velocity_value (p : ProductsFrame.row)
      (recent : list SalesFrame.row) :
  (merged_velocity (sales_velocity recent) p
   == inject_Z (wrap64 (name_quantity (ProductsFrame.Name p) recent)) / 30)%Q.
Proof.
  unfold merged_velocity. rewrite sales_velocity_keys.
  rewrite (lookup_keys
    (fun k => (inject_Z (wrap64 (name_quantity k recent)) / 30)%Q)).
  destruct (existsb _ _) eqn:E; [reflexivity|].
  unfold name_quantity. rewrite filter_nothing; [reflexivity|].
  intros r Hr. destruct (String.eqb_spec (SalesFrame.Name r)
                                         (ProductsFrame.Name p)) as [En|];
    [|reflexivity].
  exfalso. apply Bool.not_true_iff_false in E. apply E.
  apply existsb_exists. exists (SalesFrame.Name r). split.
  - apply (In_group_keys SalesFrame.Name String.eqb String.leb string_eqb_eq).
    apply in_map. exact Hr.
  - apply String.eqb_eq. symmetry. exact En.
Qed.

Lemma filter_filter_and {A : Type} (f g : A -> bool) (l : list A) :
  filter f (filter g l) = filter (fun x => f x && g x) l.
Proof.
  induction l as [|a l IH]; simpl; [reflexivity|].
  destruct (g a); simpl; [|rewrite andb_false_r; exact IH].
  rewrite andb_true_r. destruct (f a); rewrite IH; reflexivity.
Qed.

Lemma name_quantity_recent (now : datetime) (n : string)
      (sales : list SalesFrame.row) :
  name_quantity n (recent_sales now sales) = windowed_quantity now n sales.
Proof.
  unfold name_quantity, windowed_quantity, recent_sales.
  rewrite filter_filter_and. reflexivity.
Qed.

(** X6: the velocity of every row of the returned restock frame is one
    thirtieth of the int64 (wrap-around) sum of the quantities sold under
    the product's name in the aggregated sales dated at or after the
    reference time minus 30 days; the bound is inclusive, and the sum is
    0 when no such sale exists. *)
Theorem X6_velocity_is_windowed_average (now : datetime) (c : conn)
        (ins : insights) (row : RestockFrame.row) :
  run (get_insights now) c = Returned ins ->
  In row (restock ins) ->
  (RestockFrame.Quantity_Sold row
   == inject_Z (wrap64 (windowed_quantity now
                          (ProductsFrame.Name (RestockFrame.product row))
                          (run get_sales c))) / 30)%Q.
Proof.
  intros Hret. destruct (get_insights_returned _ _ _ Hret) as [-> _].
  simpl restock. intros Hin. apply in_map_iff in Hin.
  destruct Hin as [p [<- _]]. simpl.
  rewrite <- name_quantity_recent. apply merged_velocity_value.
Qed.

Lemma X6_velocity_is_windowed_average_witness :
  run (get_insights corner_shop_now) corner_shop
  = Returned (insights_of corner_shop_now corner_shop)
  /\ In (nth 0 (restock (insights_of corner_shop_now corner_shop))
             no_restock_row)
        (restock (insights_of corner_shop_now corner_shop))
  /\ windowed_quantity corner_shop_now "Tea" (run get_sales corner_shop) = 5
  /\ (RestockFrame.Quantity_Sold
        (nth 0 (restock (insights_of corner_shop_now corner_shop))
             no_restock_row)
      == inject_Z 5 / 30)%Q.
Proof.
  assert (Hret : run (get_insights corner_shop_now) corner_shop
                 = Returned (insights_of corner_shop_now corner_shop))
    by reflexivity.
  assert (Hin : In (nth 0 (restock (insights_of corner_shop_now corner_shop))
                        no_restock_row)
                   (restock (insights_of corner_shop_now corner_shop)))
    by (vm_compute; tauto).
  split; [exact Hret|]. split; [exact Hin|]. split; [reflexivity|].
  exact (X6_velocity_is_windowed_average corner_shop_now corner_shop _ _
           Hret Hin).
Defined.

(** X15: when [get_insights] returns, the restock frame has one row per
    product, and a product under whose name nothing was sold in the
    30-day window has velocity 0: with a quantity of zero or more its
    days to depletion are NaN or +inf and its urgency is 'Low'; with a
    negative quantity they are -inf and the urgency is 'Urgent'. *)
Theorem X15_zero_velocity_when_returned (now : datetime) (c : conn)
        (ins : insights) :
  run (get_insights now) c = Returned ins ->
  map RestockFrame.product (restock ins) = run get_products c
  /\ forall row : RestockFrame.row,
      In row (restock ins) ->
      windowed_quantity now (ProductsFrame.Name (RestockFrame.product row))
                        (run get_sales c) = 0 ->
      (RestockFrame.Quantity_Sold row == 0)%Q
      /\ (0 <= ProductsFrame.Quantity (RestockFrame.product row) ->
          (RestockFrame.Days_to_Depletion row = nan
           \/ RestockFrame.Days_to_Depletion row = inf false)
          /\ RestockFrame.Restock_Urgency row = "Low")
      /\ (ProductsFrame.Quantity (RestockFrame.product row) < 0 ->
          RestockFrame.Days_to_Depletion row = inf true
          /\ RestockFrame.Restock_Urgency row = "Urgent").
Proof.
  intros Hret. destruct (get_insights_returned _ _ _ Hret) as [-> _].
  simpl restock. split.
  - rewrite map_map. simpl. apply map_id.
  - intros row Hin Hq. apply in_map_iff in Hin.
    destruct Hin as [p [<- _]]. simpl in Hq.
    rewrite <- name_quantity_recent in Hq.
    pose proof (merged_velocity_zero p _ Hq) as Hv.
    split; [exact Hv|].
    apply restock_row_zero_velocity. exact Hv.
Qed.

Lemma X15_zero_velocity_when_returned_witness :
  run (get_insights corner_shop_now) corner_shop
  = Returned (insights_of corner_shop_now corner_shop)
  /\ In (nth 2 (restock (insights_of corner_shop_now corner_shop))
             no_restock_row)
        (restock (insights_of corner_shop_now corner_shop))
  /\ windowed_quantity corner_shop_now "Rice" (run get_sales corner_shop) = 0
  /\ 0 <= ProductsFrame.Quantity (RestockFrame.product
            (nth 2 (restock (insights_of corner_shop_now corner_shop))
                 no_restock_row))
  /\ RestockFrame.Restock_Urgency
       (nth 2 (restock (insights_of corner_shop_now corner_shop))
            no_restock_row)
     = "Low".
Proof.
  assert (Hret : run (get_insights corner_shop_now) corner_shop
                 = Returned (insights_of corner_shop_now corner_shop))
    by reflexivity.
  assert (Hin : In (nth 2 (restock (insights_of corner_shop_now corner_shop))
                        no_restock_row)
                   (restock (insights_of corner_shop_now corner_shop)))
    by (vm_compute; tauto).
  assert (Hq : windowed_quantity corner_shop_now "Rice"
                 (run get_sales corner_shop) = 0) by reflexivity.
  assert (H5 : 0 <= ProductsFrame.Quantity (RestockFrame.product
            (nth 2 (restock (insights_of corner_shop_now corner_shop))
                 no_restock_row))) by (vm_compute; discriminate).
  split; [exact Hret|]. split; [exact Hin|]. split; [exact Hq|].
  split; [exact H5|].
  exact (proj2 (proj1 (proj2 (proj2 (X15_zero_velocity_when_returned
           corner_shop_now corner_shop _ Hret) _ Hin Hq)) H5)).
Defined.

(** * Further properties of the sale aggregator *)

Lemma product_exists_matches (s : Sales.t) (c : conn) :
  product_exists (Sales.product_id s) c = existsb (matches s) (products c).
Proof.
  unfold product_exists, matches.
  induction (products c) as [|p ps IH]; simpl; [reflexivity|].
  rewrite IH, (String.eqb_sym (Products.id p)). reflexivity.
Qed.

(** With unique product identifiers a sale matches at most one product. *)
Lemma filter_matches_unique (ps : list Products.t) (s : Sales.t) :
  NoDup (map Products.id ps) ->
  (existsb (matches s) ps = false /\ filter (matches s) ps = [])
  \/ (existsb (matches s) ps = true
      /\ exists p, filter (matches s) ps = [p] /\ In p ps
                   /\ Products.id p = Sales.product_id s).
Proof.
  induction ps as [|p ps IH]; simpl; intros Hnd; [left; auto|].
  inversion Hnd as [|? ? Hp Hnd']; subst.
  destruct (matches s p) eqn:E; simpl.
  - right. split; [reflexivity|]. exists p.
    apply String.eqb_eq in E. split; [|split; [left; reflexivity | auto]].
    f_equal. apply filter_nothing. intros q Hq.
    destruct (matches s q) eqn:Eq; [|reflexivity].
    apply String.eqb_eq in Eq. exfalso. apply Hp.
    rewrite <- E, Eq. apply in_map. exact Hq.
  - destruct (IH Hnd') as [[H1 H2]|[H1 [q [H2 [H3 H4]]]]].
    + left. auto.
    + right. split; [exact H1|]. exists q. auto.
Qed.

Lemma join_sale_ids (ps : list Products.t) (ss : list Sales.t) :
  NoDup (map Products.id ps) ->
  map (fun sp => Sales.id (fst sp)) (join ps ss)
  = map Sales.id (filter (fun s => existsb (matches s) ps) ss).
Proof.
  intros Hnd. unfold join. induction ss as [|s ss IH]; [reflexivity|].
  simpl. rewrite map_app, IH.
  destruct (filter_matches_unique ps s Hnd) as [[H1 H2]|[H1 [p [H2 _]]]];
    rewrite H1, H2; reflexivity.
Qed.

(** X7: when product identifiers are unique (the primary key), the
    aggregator has exactly one row for each sale whose product exists, in
    the order of the sales table, and none for the others. *)
Theorem X7_one_row_per_matched_sale (c : conn) :
  NoDup (map Products.id (products c)) ->
  map SalesFrame.Sale_ID (run get_sales c)
  = map Sales.id
        (filter (fun s => product_exists (Sales.product_id s) c) (sales c)).
Proof.
  intros Hnd. rewrite run_get_sales, map_map.
  rewrite <- (filter_ext (fun s => existsb (matches s) (products c))).
  - rewrite <- (join_sale_ids _ _ Hnd). apply map_ext.
    intros [s p]. reflexivity.
  - intros s. symmetry. apply product_exists_matches.
Qed.

Lemma X7_one_row_per_matched_sale_witness :
  NoDup (map Products.id (products corner_shop))
  /\ map SalesFrame.Sale_ID (run get_sales corner_shop) = ["s1"; "s3"; "s4"].
Proof.
  assert (Hnd : NoDup (map Products.id (products corner_shop))).
  { simpl. repeat constructor; simpl; intuition discriminate. }
  split; [exact Hnd|].
  exact (X7_one_row_per_matched_sale corner_shop Hnd).
Defined.

(** X8: the revenue contribution has one entry per product name that
    occurs among the aggregated sales; products that share a name share
    one entry. *)
Theorem X8_one_share_per_name (sales : list SalesFrame.row) :
  NoDup (map fst (revenue_contribution sales))
  /\ forall n : string,
       In n (map fst (revenue_contribution sales))
       <-> exists r, In r sales /\ SalesFrame.Name r = n.
Proof.
  assert (E : map fst (revenue_contribution sales)
              = group_keys SalesFrame.Name String.eqb String.leb sales).
  { unfold revenue_contribution. rewrite map_map. simpl.
    apply (groupby_keys SalesFrame.Name String.eqb String.leb). }
  rewrite E. split.
  - apply (group_keys_NoDup _ _ _ string_eqb_eq).
  - intros n.
    rewrite (In_group_keys SalesFrame.Name String.eqb String.leb
               string_eqb_eq).
    rewrite in_map_iff. split; intros [r [H1 H2]]; exists r; auto.
Qed.

Lemma X8_one_share_per_name_witness :
  (exists r, In r (run get_sales namesake_shop) /\ SalesFrame.Name r = "Tea")
  /\ In "Tea" (map fst (revenue_contribution (run get_sales namesake_shop))).
Proof.
  assert (H : exists r, In r (run get_sales namesake_shop)
                        /\ SalesFrame.Name r = "Tea").
  { eexists. split; [left; reflexivity | reflexivity]. }
  split; [exact H|].
  exact (proj2 (proj2 (X8_one_share_per_name (run get_sales namesake_shop))
                  "Tea") H).
Defined.

(** * The writers *)

Lemma run_get_products (c : conn) :
  run get_products c = map product_row (products c).
Proof.
  reflexivity.
Qed.

Lemma product_exists_In (pid : string) (c : conn) :
  product_exists pid c = true <-> In pid (map Products.id (products c)).
Proof.
  unfold product_exists. rewrite existsb_exists, in_map_iff.
  split; intros [p [H1 H2]]; exists p.
  - apply String.eqb_eq in H2. auto.
  - split; [exact H2|]. apply String.eqb_eq. exact H1.
Qed.

Lemma sale_exists_In (sid : string) (c : conn) :
  sale_exists sid c = true <-> In sid (map Sales.id (sales c)).
Proof.
  unfold sale_exists. rewrite existsb_exists, in_map_iff.
  split; intros [p [H1 H2]]; exists p.
  - apply String.eqb_eq in H2. auto.
  - split; [exact H2|]. apply String.eqb_eq. exact H1.
Qed.

Lemma add_product_cases (pid name : string) (price : Q) (quantity : Z)
      (c : conn) :
  (product_exists pid c = true
   /\ add_product pid name price quantity c = IntegrityError)
  \/ (product_exists pid c = false
      /\ add_product pid name price quantity c
         = Committed (mkConn (products c
                              ++ [Products.mk pid name price quantity])
                             (sales c))).
Proof.
  unfold add_product. destruct (product_exists pid c); auto.
Qed.

Lemma record_sale_cases (sid : string) (now : datetime) (pid : string)
      (qs : Z) (c : conn) :
  (sale_exists sid c = true
   /\ record_sale sid now pid qs c = IntegrityError)
  \/ (sale_exists sid c = false
      /\ record_sale sid now pid qs c
         = Committed
             (mkConn (map (update_quantity qs pid) (products c))
                     (sales c ++ [Sales.mk sid pid qs
                                           (drop_microseconds now)]))).
Proof.
  unfold record_sale. destruct (sale_exists sid c); auto.
Qed.

Lemma join_new_product (ps : list Products.t) (p : Products.t)
      (ss : list Sales.t) :
  (forall s, In s ss -> Sales.product_id s <> Products.id p) ->
  join (ps ++ [p]) ss = join ps ss.
Proof.
  intros H. unfold join. induction ss as [|s ss IH]; [reflexivity|].
  simpl. rewrite IH by (intros s' Hs'; apply H; right; exact Hs').
  rewrite filter_app. simpl.
  replace (matches s p) with false; [rewrite app_nil_r; reflexivity|].
  symmetry. apply String.eqb_neq. apply H. left. reflexivity.
Qed.

(** X9: adding a product under a fresh identifier appends its row, with
    its stock status, to the product frame and leaves the sales table
    alone; the aggregated sales stay the same unless some sale already
    referred to that identifier.  Under an identifier that is taken the
    insert fails. *)
Theorem X9_add_product_appends (pid name : string) (price : Q)
        (quantity : Z) (c : conn) :
  (product_exists pid c = true ->
   add_product pid name price quantity c = IntegrityError)
  /\ (product_exists pid c = false ->
      exists c',
        add_product pid name price quantity c = Committed c'
        /\ run get_products c'
           = (run get_products c
              ++ [ProductsFrame.mk pid name price quantity
                                   (stock_status quantity)])%list
        /\ sales c' = sales c
        /\ ((forall s, In s (sales c) -> Sales.product_id s <> pid) ->
            run get_sales c' = run get_sales c)).
Proof.
  destruct (add_product_cases pid name price quantity c) as [[E H]|[E H]];
    rewrite E, H; split; try discriminate; intros _; [reflexivity|].
  eexists. split; [reflexivity|]. split; [|split; [reflexivity|]].
  - rewrite !run_get_products. simpl. rewrite map_app. reflexivity.
  - intros Hs. rewrite !run_get_sales. simpl.
    rewrite join_new_product; [reflexivity | exact Hs].
Qed.

Lemma X9_add_product_appends_witness :
  product_exists "p4" corner_shop = false
  /\ exists c',
       add_product "p4" "Salt" 1 7 corner_shop = Committed c'
       /\ run get_products c'
          = (run get_products corner_shop
             ++ [ProductsFrame.mk "p4" "Salt" 1 7 (stock_status 7)])%list
       /\ sales c' = sales corner_shop
       /\ ((forall s, In s (sales corner_shop) ->
                      Sales.product_id s <> "p4") ->
           run get_sales c' = run get_sales corner_shop).
Proof.
  assert (H : product_exists "p4" corner_shop = false) by reflexivity.
  split; [exact H|].
  exact (proj2 (X9_add_product_appends "p4" "Salt" 1 7 corner_shop) H).
Defined.

Lemma update_quantity_id (qs : Z) (pid : string) (p : Products.t) :
  Products.id (update_quantity qs pid p) = Products.id p.
Proof.
  unfold update_quantity. destruct (String.eqb _ _); reflexivity.
Qed.

Lemma update_quantity_name (qs : Z) (pid : string) (p : Products.t) :
  Products.name (update_quantity qs pid p) = Products.name p.
Proof.
  unfold update_quantity. destruct (String.eqb _ _); reflexivity.
Qed.

Lemma update_quantity_price (qs : Z) (pid : string) (p : Products.t) :
  Products.price (update_quantity qs pid p) = Products.price p.
Proof.
  unfold update_quantity. destruct (String.eqb _ _); reflexivity.
Qed.

Lemma update_quantity_ids (qs : Z) (pid : string) (ps : list Products.t) :
  map Products.id (map (update_quantity qs pid) ps) = map Products.id ps.
Proof.
  rewrite map_map. apply map_ext. intros p. apply update_quantity_id.
Qed.

Lemma stock_after_update (qs : Z) (pid pid' : string)
      (ps : list Products.t) :
  NoDup (map Products.id ps) ->
  sum_Z (map Products.quantity
           (filter (fun p => String.eqb (Products.id p) pid')
                   (map (update_quantity qs pid) ps)))
  = sum_Z (map Products.quantity
             (filter (fun p => String.eqb (Products.id p) pid') ps))
    - (if String.eqb pid' pid
          && existsb (fun p => String.eqb (Products.id p) pid) ps
       then qs else 0).
Proof.
  induction ps as [|p ps IH]; simpl; intros Hnd.
  - rewrite andb_false_r. reflexivity.
  - inversion Hnd as [|? ? Hp Hnd']; subst. specialize (IH Hnd').
    rewrite update_quantity_id.
    destruct (String.eqb_spec (Products.id p) pid') as [E1|E1];
      destruct (String.eqb_spec (Products.id p) pid) as [E2|E2];
      simpl; rewrite IH.
    + subst pid' pid. rewrite String.eqb_refl. simpl.
      replace (existsb _ ps) with false.
      * unfold update_quantity. rewrite String.eqb_refl. simpl. lia.
      * symmetry. apply Bool.not_true_iff_false. intros Hex.
        apply existsb_exists in Hex. destruct Hex as [q [Hq Eq]].
        apply String.eqb_eq in Eq. apply Hp. rewrite <- Eq.
        apply in_map. exact Hq.
    + subst pid'. unfold update_quantity.
      destruct (String.eqb_spec (Products.id p) pid) as [E|E];
        [contradiction|].
      destruct (String.eqb_spec (Products.id p) pid) as [E'|E'];
        [contradiction|]. simpl. lia.
    + replace (String.eqb pid' pid) with false; [reflexivity|].
      symmetry. apply String.eqb_neq. congruence.
    + reflexivity.
Qed.

Lemma on_hand_after_sale (sid : string) (now : datetime) (pid : string)
      (qs : Z) (c c' : conn) (pid' : string) :
  record_sale sid now pid qs c = Committed c' ->
  NoDup (map Products.id (products c)) ->
  on_hand pid' c'
  = on_hand pid' c
    - (if String.eqb pid' pid && product_exists pid c then qs else 0).
Proof.
  intros H Hnd.
  destruct (record_sale_cases sid now pid qs c) as [[_ E]|[_ E]];
    rewrite E in H; [discriminate|]. injection H as <-.
  unfold on_hand, product_exists. simpl. apply stock_after_update. exact Hnd.
Qed.

Lemma units_sold_after_sale (sid : string) (now : datetime) (pid : string)
      (qs : Z) (c c' : conn) (pid' : string) :
  record_sale sid now pid qs c = Committed c' ->
  units_sold pid' c'
  = units_sold pid' c + (if String.eqb pid' pid then qs else 0).
Proof.
  intros H.
  destruct (record_sale_cases sid now pid qs c) as [[_ E]|[_ E]];
    rewrite E in H; [discriminate|]. injection H as <-.
  unfold units_sold. simpl. rewrite filter_app, map_app, sum_Z_app. simpl.
  rewrite (String.eqb_sym pid pid').
  destruct (String.eqb pid' pid); simpl; lia.
Qed.

(** X10: recording a sale of an existing product (identifiers unique)
    takes the quantity sold off that product's stock and off no other,
    so that for every product the units on hand plus the units sold stay
    what they were. *)
Theorem X10_record_sale_conserves_units (sid : string) (now : datetime)
        (pid : string) (qs : Z) (c c' : conn) :
  record_sale sid now pid qs c = Committed c' ->
  NoDup (map Products.id (products c)) ->
  product_exists pid c = true ->
  on_hand pid c' = on_hand pid c - qs
  /\ (forall pid', pid' <> pid -> on_hand pid' c' = on_hand pid' c)
  /\ (forall pid',
        on_hand pid' c' + units_sold pid' c'
        = on_hand pid' c + units_sold pid' c).
Proof.
  intros H Hnd Hex. split; [|split].
  - rewrite (on_hand_after_sale _ _ _ _ _ _ pid H Hnd).
    rewrite String.eqb_refl, Hex. reflexivity.
  - intros pid' Hne. rewrite (on_hand_after_sale _ _ _ _ _ _ pid' H Hnd).
    apply String.eqb_neq in Hne. rewrite Hne. simpl. lia.
  - intros pid'. rewrite (on_hand_after_sale _ _ _ _ _ _ pid' H Hnd).
    rewrite (units_sold_after_sale _ _ _ _ _ _ pid' H). rewrite Hex.
    destruct (String.eqb pid' pid); simpl; lia.
Qed.

Lemma X10_record_sale_conserves_units_witness :
  record_sale "s5" corner_shop_now "p3" 2 corner_shop
  = Committed (mkConn (map (update_quantity 2 "p3") (products corner_shop))
                      (sales corner_shop
                       ++ [Sales.mk "s5" "p3" 2 corner_shop_now]))
  /\ NoDup (map Products.id (products corner_shop))
  /\ product_exists "p3" corner_shop = true
  /\ on_hand "p3" (mkConn (map (update_quantity 2 "p3")
                              (products corner_shop))
                         (sales corner_shop
                          ++ [Sales.mk "s5" "p3" 2 corner_shop_now]))
     = on_hand "p3" corner_shop - 2.
Proof.
  assert (H : record_sale "s5" corner_shop_now "p3" 2 corner_shop
              = Committed
                  (mkConn (map (update_quantity 2 "p3")
                               (products corner_shop))
                          (sales corner_shop
                           ++ [Sales.mk "s5" "p3" 2 corner_shop_now])))
    by reflexivity.
  assert (Hnd : NoDup (map Products.id (products corner_shop))).
  { simpl. repeat constructor; simpl; intuition discriminate. }
  assert (Hex : product_exists "p3" corner_shop = true) by reflexivity.
  split; [exact H|]. split; [exact Hnd|]. split; [exact Hex|].
  exact (proj1 (X10_record_sale_conserves_units _ _ _ _ _ _ H Hnd Hex)).
Defined.

(** * The pages that write *)

Lemma dict_get_set (k v n : string) (d : list (string * string)) :
  dict_get n (dict_set k v d)
  = if String.eqb k n then Some v else dict_get n d.
Proof.
  induction d as [|[k' v'] d IH]; simpl; [reflexivity|].
  destruct (String.eqb_spec k' k) as [->|Hk]; simpl.
  - destruct (String.eqb k n); reflexivity.
  - rewrite IH.
    destruct (String.eqb_spec k' n) as [->|Hn]; [|reflexivity].
    apply String.eqb_neq in Hk. rewrite String.eqb_sym, Hk. reflexivity.
Qed.

Lemma find_app_or {A : Type} (f : A -> bool) (l1 l2 : list A) :
  find f (l1 ++ l2)
  = match find f l1 with
    | Some x => Some x
    | None => find f l2
    end.
Proof.
  induction l1 as [|a l1 IH]; simpl; [reflexivity|].
  destruct (f a); [reflexivity | exact IH].
Qed.

Lemma find_map_row {A B : Type} (g : A -> B) (f : B -> bool) (l : list A) :
  find f (map g l) = option_map g (find (fun a => f (g a)) l).
Proof.
  induction l as [|a l IH]; simpl; [reflexivity|].
  destruct (f (g a)); [reflexivity | exact IH].
Qed.

(** The dictionary of the page maps a name to the identifier of the last
    row with that name. *)
Lemma product_dict_get (n : string) (rows : list ProductsFrame.row) :
  dict_get n (product_dict rows)
  = option_map ProductsFrame.ID
      (find_last (fun r => String.eqb (ProductsFrame.Name r) n) rows).
Proof.
  unfold product_dict, find_last.
  assert (H : forall d,
    dict_get n (fold_left (fun d row =>
                   dict_set (ProductsFrame.Name row) (ProductsFrame.ID row) d)
                 rows d)
    = match find (fun r => String.eqb (ProductsFrame.Name r) n) (rev rows)
      with
      | Some r => Some (ProductsFrame.ID r)
      | None => dict_get n d
      end).
  { induction rows as [|a rows IH]; intros d; simpl; [reflexivity|].
    rewrite IH, find_app_or, dict_get_set. simpl.
    destruct (find _ (rev rows)); [reflexivity|].
    destruct (String.eqb (ProductsFrame.Name a) n); reflexivity. }
  rewrite H. destruct (find _ (rev rows)); reflexivity.
Qed.

Lemma filter_id_unique (ps : list Products.t) (p : Products.t) :
  NoDup (map Products.id ps) -> In p ps ->
  filter (fun q => String.eqb (Products.id q) (Products.id p)) ps = [p].
Proof.
  induction ps as [|a ps IH]; simpl; intros Hnd Hin; [contradiction|].
  inversion Hnd as [|? ? Ha Hnd']; subst.
  destruct Hin as [->|Hin].
  - rewrite String.eqb_refl. f_equal. apply filter_nothing.
    intros q Hq. apply String.eqb_neq. intros E. apply Ha.
    rewrite <- E. apply in_map. exact Hq.
  - destruct (String.eqb_spec (Products.id a) (Products.id p)) as [E|E].
    + exfalso. apply Ha. rewrite E. apply in_map. exact Hin.
    + apply IH; assumption.
Qed.

Lemma find_last_some {A : Type} (f : A -> bool) (l : list A) (x : A) :
  find_last f l = Some x -> In x l /\ f x = true.
Proof.
  unfold find_last. intros H. apply find_some in H.
  destruct H as [H1 H2]. split; [apply in_rev; exact H1 | exact H2].
Qed.

Lemma record_sale_page_unfold (sid : string) (now : datetime)
      (name : string) (qs : Z) (c : conn) :
  NoDup (map Products.id (products c)) ->
  record_sale_page sid now name qs c
  = record_sale_page_spec sid now name qs c.
Proof.
  intros Hnd. unfold record_sale_page, record_sale_page_spec.
  rewrite run_get_products, product_dict_get. unfold find_last.
  rewrite <- map_rev, find_map_row. simpl.
  destruct (find _ (rev (products c))) as [p|] eqn:E; simpl; [|reflexivity].
  apply find_some in E. destruct E as [Hin _]. apply in_rev in Hin.
  assert (F : filter (fun r => String.eqb (ProductsFrame.ID r)
                                          (Products.id p))
                     (map product_row (products c))
              = [product_row p]).
  { transitivity
      (map product_row
         (filter (fun q => String.eqb (Products.id q) (Products.id p))
                 (products c))).
    - generalize (products c) as ps. induction ps as [|a ps IH]; simpl;
        [reflexivity|].
      destruct (String.eqb _ _); simpl; rewrite IH; reflexivity.
    - rewrite (filter_id_unique _ _ Hnd Hin). reflexivity. }
  rewrite F. reflexivity.
Qed.

Lemma record_sale_page_success (sid : string) (now : datetime)
      (name : string) (qs : Z) (c c' : conn) :
  NoDup (map Products.id (products c)) ->
  record_sale_page sid now name qs c = Success c' ->
  exists p,
    find_last (fun p => String.eqb (Products.name p) name) (products c)
    = Some p
    /\ In p (products c) /\ Products.name p = name
    /\ qs <= Products.quantity p
    /\ sale_exists sid c = false
    /\ c' = mkConn (map (update_quantity qs (Products.id p)) (products c))
                   (sales c ++ [Sales.mk sid (Products.id p) qs
                                         (drop_microseconds now)]).
Proof.
  intros Hnd. rewrite (record_sale_page_unfold _ _ _ _ _ Hnd).
  unfold record_sale_page_spec.
  destruct (find_last _ (products c)) as [p|] eqn:E; [|discriminate].
  destruct (Z.leb_spec qs (Products.quantity p)) as [L|L]; [|discriminate].
  destruct (record_sale_cases sid now (Products.id p) qs c)
    as [[Hs R]|[Hs R]]; rewrite R; [discriminate|].
  intros H. injection H as <-.
  destruct (find_last_some _ _ _ E) as [Hin Hn].
  apply String.eqb_eq in Hn. exists p. auto 10.
Qed.

(** X11: with unique product identifiers, the "Record Sale" page acts on
    the last product that carries the selected name: it ends in a
    KeyError when no product has the name, reports insufficient stock when
    the quantity sold exceeds that product's quantity, and otherwise
    records the sale against that product; looking up the available
    quantity never fails. *)
Theorem X11_record_sale_page_behaviour (sid : string) (now : datetime)
        (name : string) (qs : Z) (c : conn) :
  NoDup (map Products.id (products c)) ->
  record_sale_page sid now name qs c
  = record_sale_page_spec sid now name qs c
  /\ record_sale_page sid now name qs c <> IndexError
  /\ (forall available,
        record_sale_page sid now name qs c = InsufficientStock available ->
        available < qs)
  /\ (forall c',
        record_sale_page sid now name qs c = Success c' ->
        exists p,
          find_last (fun p => String.eqb (Products.name p) name) (products c)
          = Some p
          /\ qs <= Products.quantity p
          /\ record_sale sid now (Products.id p) qs c = Committed c').
Proof.
  intros Hnd. split; [apply record_sale_page_unfold; exact Hnd|].
  split; [|split].
  - rewrite (record_sale_page_unfold _ _ _ _ _ Hnd).
    unfold record_sale_page_spec.
    destruct (find_last _ _); [|discriminate].
    destruct (_ <=? _); [|discriminate].
    destruct (record_sale _ _ _ _ _); discriminate.
  - intros a. rewrite (record_sale_page_unfold _ _ _ _ _ Hnd).
    unfold record_sale_page_spec.
    destruct (find_last _ _) as [p|]; [|discriminate].
    destruct (Z.leb_spec qs (Products.quantity p)) as [L|L].
    + destruct (record_sale _ _ _ _ _); discriminate.
    + intros H. injection H as <-. exact L.
  - intros c' H.
    destruct (record_sale_page_success _ _ _ _ _ _ Hnd H)
      as [p [E [_ [_ [L [Hs ->]]]]]].
    exists p. split; [exact E|]. split; [exact L|].
    unfold record_sale. rewrite Hs. reflexivity.
Qed.

Lemma X11_record_sale_page_behaviour_witness :
  NoDup (map Products.id (products namesake_shop))
  /\ record_sale_page "s2" corner_shop_now "Tea" 41 namesake_shop
     = InsufficientStock 40
  /\ record_sale_page "s2" corner_shop_now "Tea" 4 namesake_shop
     = record_sale_page_spec "s2" corner_shop_now "Tea" 4 namesake_shop.
Proof.
  assert (Hnd : NoDup (map Products.id (products namesake_shop))).
  { simpl. repeat constructor; simpl; intuition discriminate. }
  split; [exact Hnd|]. split; [reflexivity|].
  exact (proj1 (X11_record_sale_page_behaviour "s2" corner_shop_now "Tea" 4
                  namesake_shop Hnd)).
Defined.

(** ** What the pages keep true *)

Lemma store_ok_empty : store_ok empty_shop.
Proof.
  constructor; simpl; constructor.
Qed.

Lemma add_product_page_ok (pid name : string) (price : Q) (quantity : Z)
      (c c' : conn) :
  store_ok c ->
  add_product_page pid name price quantity c = Success c' ->
  store_ok c'.
Proof.
  intros [H1 H2 H3 H4]. unfold add_product_page.
  destruct (negb (String.eqb name "") && Qltb 0 price && (0 <=? quantity))
    eqn:G; [|discriminate].
  apply andb_true_iff in G. destruct G as [G Gq].
  apply andb_true_iff in G. destruct G as [Gn Gp].
  apply negb_true_iff, String.eqb_neq in Gn.
  apply Qltb_true in Gp. apply Z.leb_le in Gq.
  destruct (add_product_cases pid name price quantity c) as [[E R]|[E R]];
    rewrite R; [discriminate|]. intros H. injection H as <-.
  constructor; simpl.
  - rewrite map_app. simpl.
    apply Permutation_NoDup with (l := pid :: map Products.id (products c)).
    + apply Permutation_cons_append.
    + constructor; [|exact H1]. intros Hin.
      apply product_exists_In in Hin. congruence.
  - exact H2.
  - apply Forall_app. split; [exact H3|]. constructor; [|constructor].
    repeat split; simpl; assumption.
  - eapply Forall_impl; [|exact H4]. intros s [Hs1 Hs2]. split; [|exact Hs2].
    unfold product_exists in *. simpl. rewrite existsb_app, Hs1. reflexivity.
Qed.

Lemma record_sale_page_ok (sid : string) (now : datetime) (name : string)
      (qs : Z) (c c' : conn) :
  store_ok c -> 1 <= qs ->
  record_sale_page sid now name qs c = Success c' ->
  store_ok c'.
Proof.
  intros [H1 H2 H3 H4] Hqs H.
  destruct (record_sale_page_success _ _ _ _ _ _ H1 H)
    as [p [_ [Hin [_ [L [Hs ->]]]]]].
  assert (Hex : forall pid,
    product_exists pid
      (mkConn (map (update_quantity qs (Products.id p)) (products c))
              (sales c ++ [Sales.mk sid (Products.id p) qs
                                    (drop_microseconds now)]))
    = product_exists pid c).
  { intros pid. apply eq_true_iff_eq. rewrite !product_exists_In. simpl.
    rewrite update_quantity_ids. reflexivity. }
  constructor; simpl.
  - rewrite update_quantity_ids. exact H1.
  - rewrite map_app. simpl.
    apply Permutation_NoDup with (l := sid :: map Sales.id (sales c)).
    + apply Permutation_cons_append.
    + constructor; [|exact H2]. intros Hi.
      apply sale_exists_In in Hi. congruence.
  - apply Forall_forall. intros q Hq. apply in_map_iff in Hq.
    destruct Hq as [q0 [<- Hq0]].
    rewrite Forall_forall in H3. destruct (H3 q0 Hq0) as [Hn [Hp Hq]].
    unfold product_ok. rewrite update_quantity_name, update_quantity_price.
    split; [exact Hn|]. split; [exact Hp|].
    unfold update_quantity.
    destruct (String.eqb_spec (Products.id q0) (Products.id p)) as [E|E];
      [|exact Hq].
    simpl. rewrite (NoDup_map_inj Products.id _ q0 p H1 Hq0 Hin E). lia.
  - apply Forall_app. split.
    + eapply Forall_impl; [|exact H4]. intros s [Hs1 Hs2].
      split; [|exact Hs2]. rewrite Hex. exact Hs1.
    + constructor; [|constructor]. split; simpl; [|exact Hqs].
      rewrite Hex. apply product_exists_In. apply in_map. exact Hin.
Qed.

Lemma submit_ok (a : action) (c : conn) :
  widget_ok a -> store_ok c -> store_ok (store_after (submit a c) c).
Proof.
  intros Hw Hc. destruct a as [pid name price quantity|sid now name qs];
    simpl in *.
  - destruct (add_product_page pid name price quantity c) eqn:E;
      simpl; try exact Hc.
    eapply add_product_page_ok; eassumption.
  - destruct (record_sale_page sid now name qs c) eqn:E;
      simpl; try exact Hc.
    eapply record_sale_page_ok; eassumption.
Qed.

Lemma replay_ok (acts : list action) (c : conn) :
  Forall widget_ok acts -> store_ok c -> store_ok (replay acts c).
Proof.
  intros Hw. revert c.
  induction Hw as [|a acts Ha Hacts IH]; intros c Hc; simpl; [exact Hc|].
  apply IH. apply submit_ok; assumption.
Qed.

(** X12: starting from the empty shop, or from any store that satisfies
    them, every sequence of "Add Product" and "Record Sale" submissions
    keeps these facts: product and sale identifiers are unique, every
    product has a non-empty name, a positive price and a quantity of zero
    or more, and every sale refers to an existing product and sold at
    least one unit. *)
Theorem X12_pages_keep_store_ok (acts : list action) (c : conn) :
  Forall widget_ok acts -> store_ok c ->
  store_ok (replay acts c) /\ store_ok (replay acts empty_shop).
Proof.
  intros Hw Hc. split; apply replay_ok; trivial. exact store_ok_empty.
Qed.

Lemma X12_pages_keep_store_ok_witness :
  Forall widget_ok morning
  /\ store_ok empty_shop
  /\ replay morning empty_shop
     = mkConn [Products.mk "p1" "Tea" (5 # 2) 7]
              [Sales.mk "s1" "p1" 3 (mkDatetime 2025 1 20 9 30 0 0)]
  /\ store_ok (replay morning empty_shop).
Proof.
  assert (Hw : Forall widget_ok morning).
  { repeat constructor; simpl; lia. }
  split; [exact Hw|]. split; [exact store_ok_empty|].
  split; [reflexivity|].
  exact (proj2 (X12_pages_keep_store_ok morning empty_shop Hw store_ok_empty)).
Defined.

(** ** Consequences for the readers *)

Lemma enrich_revenue_positive (s : Sales.t) (p : Products.t) :
  1 <= Sales.quantity_sold s -> (0 < Products.price p)%Q ->
  (0 < SalesFrame.Revenue (enrich (s, p)))%Q.
Proof.
  intros Hq Hp. simpl.
  apply Qmult_lt_0_compat; [|exact Hp].
  unfold Qlt. simpl. lia.
Qed.

Lemma map_eq_nil_inv {A B : Type} (f : A -> B) (l : list A) :
  map f l = [] -> l = [].
Proof.
  destruct l; [reflexivity | discriminate].
Qed.

(** X13: in a store that the pages have kept in order, no sale is dropped
    by the aggregator, every aggregated sale has positive revenue, and
    the total revenue is zero only when there is no sale at all, in which
    case the revenue contribution is empty. *)
Theorem X13_store_ok_aggregation (c : conn) :
  store_ok c ->
  map SalesFrame.Sale_ID (run get_sales c) = map Sales.id (sales c)
  /\ (forall r, In r (run get_sales c) -> (0 < SalesFrame.Revenue r)%Q)
  /\ ((total_revenue (run get_sales c) == 0)%Q ->
      sales c = [] /\ revenue_contribution (run get_sales c) = []).
Proof.
  intros [H1 H2 H3 H4].
  assert (Hids : map SalesFrame.Sale_ID (run get_sales c)
                 = map Sales.id (sales c)).
  { rewrite run_get_sales, map_map.
    transitivity (map (fun sp => Sales.id (fst sp))
                      (join (products c) (sales c))).
    - apply map_ext. intros [s p]. reflexivity.
    - rewrite (join_sale_ids _ _ H1). f_equal. apply filter_all.
      intros s Hs. rewrite Forall_forall in H4.
      destruct (H4 s Hs) as [Hex _].
      rewrite <- product_exists_matches. exact Hex. }
  assert (Hpos : forall r, In r (run get_sales c) ->
                           (0 < SalesFrame.Revenue r)%Q).
  { intros r Hr. rewrite run_get_sales in Hr. apply in_map_iff in Hr.
    destruct Hr as [[s p] [<- Hj]]. apply In_join in Hj.
    destruct Hj as [Hs [Hp _]]. rewrite Forall_forall in H3, H4.
    apply enrich_revenue_positive.
    - apply (H4 s Hs).
    - apply (H3 p Hp). }
  split; [exact Hids|]. split; [exact Hpos|].
  intros Hz.
  assert (Hnil : run get_sales c = []).
  { destruct (run get_sales c) as [|r rows] eqn:E; [reflexivity|]. exfalso.
    assert (H : (0 < total_revenue (r :: rows))%Q).
    { unfold total_revenue. apply sum_Q_positive; [|discriminate].
      intros q Hq. apply in_map_iff in Hq. destruct Hq as [r' [<- Hr']].
      apply Hpos. exact Hr'. }
    rewrite Hz in H. apply (Qlt_irrefl 0). exact H. }
  rewrite Hnil in Hids. simpl in Hids. symmetry in Hids.
  apply map_eq_nil_inv in Hids. rewrite Hnil. split; [exact Hids|reflexivity].
Qed.

Lemma X13_store_ok_aggregation_witness :
  store_ok (replay morning empty_shop)
  /\ map SalesFrame.Sale_ID (run get_sales (replay morning empty_shop))
     = ["s1"].
Proof.
  assert (Hw : Forall widget_ok morning).
  { repeat constructor; simpl; lia. }
  assert (Hok : store_ok (replay morning empty_shop))
    by (apply replay_ok; [exact Hw | exact store_ok_empty]).
  split; [exact Hok|].
  exact (proj1 (X13_store_ok_aggregation _ Hok)).
Defined.

Lemma enrich_update_quantity (qs : Z) (pid : string) (s : Sales.t)
      (p : Products.t) :
  enrich (s, update_quantity qs pid p) = enrich (s, p).
Proof.
  simpl. rewrite update_quantity_name, update_quantity_price. reflexivity.
Qed.

Lemma filter_matches_update (qs : Z) (pid : string) (s : Sales.t)
      (ps : list Products.t) :
  filter (matches s) (map (update_quantity qs pid) ps)
  = map (update_quantity qs pid) (filter (matches s) ps).
Proof.
  induction ps as [|p ps IH]; simpl; [reflexivity|].
  assert (E : matches s (update_quantity qs pid p) = matches s p)
    by (unfold matches; rewrite update_quantity_id; reflexivity).
  rewrite E. destruct (matches s p); simpl; rewrite IH; reflexivity.
Qed.

(** Changing quantities does not change the aggregated sales. *)
Lemma join_update_quantity (qs : Z) (pid : string) (ps : list Products.t)
      (ss : list Sales.t) :
  map enrich (join (map (update_quantity qs pid) ps) ss)
  = map enrich (join ps ss).
Proof.
  unfold join. induction ss as [|s ss IH]; [reflexivity|].
  cbn [flat_map]. rewrite !map_app, IH. f_equal.
  rewrite filter_matches_update, !map_map.
  apply map_ext. intros p. apply enrich_update_quantity.
Qed.

Lemma to_microseconds_drop (t : datetime) :
  to_microseconds (drop_microseconds t) = to_microseconds t - microsecond t.
Proof.
  unfold to_microseconds, drop_microseconds, toordinal. simpl. lia.
Qed.

(** X14: after the "Record Sale" page has accepted a sale (product
    identifiers unique), the aggregated sales are the former ones followed
    by one row for the new sale, with the name and the price of the
    product sold and revenue quantity times price; the stock of that
    product is lower by the quantity sold; and the new sale lies in the
    30-day window of the time at which it was recorded. *)
Theorem X14_recorded_sale_is_aggregated (sid : string) (now : datetime)
        (name : string) (qs : Z) (c c' : conn) :
  NoDup (map Products.id (products c)) ->
  0 <= microsecond now < 1000000 ->
  record_sale_page sid now name qs c = Success c' ->
  exists p : Products.t,
    In p (products c) /\ Products.name p = name
    /\ run get_sales c'
       = (run get_sales c ++ [recorded_row sid now qs p])%list
    /\ on_hand (Products.id p) c' = on_hand (Products.id p) c - qs
    /\ In (recorded_row sid now qs p) (recent_sales now (run get_sales c')).
Proof.
  intros Hnd Hus H.
  destruct (record_sale_page_success _ _ _ _ _ _ Hnd H)
    as [p [_ [Hin [Hn [L [Hs ->]]]]]].
  exists p. split; [exact Hin|]. split; [exact Hn|].
  assert (Hrows :
    run get_sales
      (mkConn (map (update_quantity qs (Products.id p)) (products c))
              (sales c ++ [Sales.mk sid (Products.id p) qs
                                    (drop_microseconds now)]))
    = (run get_sales c ++ [recorded_row sid now qs p])%list).
  { rewrite !run_get_sales. simpl.
    rewrite join_app, map_app, join_update_quantity. f_equal.
    unfold join. simpl. rewrite app_nil_r, filter_matches_update.
    assert (F : filter (matches (Sales.mk sid (Products.id p) qs
                                          (drop_microseconds now)))
                       (products c) = [p]).
    { rewrite <- (filter_id_unique _ _ Hnd Hin). apply filter_ext.
      intros q. unfold matches. simpl. apply String.eqb_sym. }
    rewrite F. simpl. rewrite update_quantity_name, update_quantity_price.
    reflexivity. }
  split; [exact Hrows|]. split.
  - unfold on_hand. simpl. rewrite (stock_after_update _ _ _ _ Hnd).
    rewrite String.eqb_refl. simpl.
    replace (existsb _ (products c)) with true; [reflexivity|].
    symmetry. apply existsb_exists. exists p. split; [exact Hin|].
    apply String.eqb_refl.
  - rewrite Hrows. unfold recent_sales. apply filter_In. split.
    + apply in_or_app. right. left. reflexivity.
    + apply Z.leb_le. simpl SalesFrame.Sale_Date.
      rewrite to_microseconds_drop. unfold timedelta_days. lia.
Qed.

Lemma X14_recorded_sale_is_aggregated_witness :
  NoDup (map Products.id (products namesake_shop))
  /\ 0 <= microsecond (mkDatetime 2025 1 20 9 30 0 250000) < 1000000
  /\ record_sale_page "s2" (mkDatetime 2025 1 20 9 30 0 250000) "Tea" 4
       namesake_shop
     = Success (mkConn [Products.mk "p1" "Tea" (5 # 2) 3;
                        Products.mk "p2" "Tea" (5 # 2) 36]
                       [Sales.mk "s1" "p2" 30 (noon 2025 1 10);
                        Sales.mk "s2" "p2" 4
                                 (mkDatetime 2025 1 20 9 30 0 0)])
  /\ exists p : Products.t,
       In p (products namesake_shop) /\ Products.name p = "Tea"
       /\ run get_sales
            (mkConn [Products.mk "p1" "Tea" (5 # 2) 3;
                     Products.mk "p2" "Tea" (5 # 2) 36]
                    [Sales.mk "s1" "p2" 30 (noon 2025 1 10);
                     Sales.mk "s2" "p2" 4 (mkDatetime 2025 1 20 9 30 0 0)])
          = (run get_sales namesake_shop
             ++ [recorded_row "s2" (mkDatetime 2025 1 20 9 30 0 250000)
                              4 p])%list
       /\ on_hand (Products.id p)
            (mkConn [Products.mk "p1" "Tea" (5 # 2) 3;
                     Products.mk "p2" "Tea" (5 # 2) 36]
                    [Sales.mk "s1" "p2" 30 (noon 2025 1 10);
                     Sales.mk "s2" "p2" 4 (mkDatetime 2025 1 20 9 30 0 0)])
          = on_hand (Products.id p) namesake_shop - 4
       /\ In (recorded_row "s2" (mkDatetime 2025 1 20 9 30 0 250000) 4 p)
             (recent_sales (mkDatetime 2025 1 20 9 30 0 250000)
                (run get_sales
                   (mkConn [Products.mk "p1" "Tea" (5 # 2) 3;
                            Products.mk "p2" "Tea" (5 # 2) 36]
                           [Sales.mk "s1" "p2" 30 (noon 2025 1 10);
                            Sales.mk "s2" "p2" 4
                                     (mkDatetime 2025 1 20 9 30 0 0)]))).
Proof.
  assert (Hnd : NoDup (map Products.id (products namesake_shop))).
  { simpl. repeat constructor; simpl; intuition discriminate. }
  assert (Hus : 0 <= microsecond (mkDatetime 2025 1 20 9 30 0 250000)
                < 1000000) by (simpl; lia).
  assert (H : record_sale_page "s2" (mkDatetime 2025 1 20 9 30 0 250000)
                "Tea" 4 namesake_shop
              = Success (mkConn [Products.mk "p1" "Tea" (5 # 2) 3;
                                 Products.mk "p2" "Tea" (5 # 2) 36]
                                [Sales.mk "s1" "p2" 30 (noon 2025 1 10);
                                 Sales.mk "s2" "p2" 4
                                   (mkDatetime 2025 1 20 9 30 0 0)]))
    by reflexivity.
  split; [exact Hnd|]. split; [exact Hus|]. split; [exact H|].
  exact (X14_recorded_sale_is_aggregated _ _ _ _ _ _ Hnd Hus H).
Defined.
